(** * my-fitness-pal backend: the authentication routes and their guard

    A shallow embedding of [backend/routes/auth.js] and of the middleware
    [authenticateToken] it requires, followed by the properties of the
    authorization guard, the registration path and the food endpoints.

    JavaScript values are embedded as the inductive type [json]; the Express
    response object, the database behind [pool], the clock and the source of
    salts form the state threaded through a small state-and-exception monad.
    A thrown JavaScript error is the outcome [Thrown] carrying its message.

    The packages jsonwebtoken and bcryptjs are not part of the sources: the
    routes take their functions as parameters, and the modules [Jwt] and
    [Bcrypt] give the instances the properties of tokens are stated on.
    The built-in [String.prototype.toLowerCase], which follows the Unicode
    case mappings, is a parameter of the log-food route as well.
    The aggregation route [/daily-summary] passes on the rows of two SQL
    queries; the queries themselves are parameters of its embedding. *)

From Stdlib Require Import String Ascii List Bool Lia.
From Stdlib Require Import NArith ZArith QArith.
From Stdlib Require Import DecimalString DecimalN.
Import ListNotations.

Local Open Scope list_scope.
Local Open Scope string_scope.

(* ================================================================== *)
(** ** JavaScript values and the string operations the routes use *)

Module JS.

(** The values that can reach a handler through [express.json()], plus
    [undefined] for a property that is absent.  A number is the parsed value
    of the literal; both zeros of the double format are the rational 0. *)
#[local] Unset Elimination Schemes.
Inductive json : Type :=
| JUndefined
| JNull
| JBool (b : bool)
| JNum (q : Q)
| JStr (s : string)
| JArr (items : list json)
| JObj (fields : list (string * json)).
#[local] Set Elimination Schemes.

(** ToBoolean: what [!v] negates. *)
Definition truthy (v : json) : bool :=
  match v with
  | JUndefined | JNull => false
  | JBool b => b
  | JNum q => negb (Qeq_bool q 0)
  | JStr s => negb (s =? "")
  | JArr _ | JObj _ => true
  end.

Definition typeof (v : json) : string :=
  match v with
  | JUndefined => "undefined"
  | JNull | JArr _ | JObj _ => "object"
  | JBool _ => "boolean"
  | JNum _ => "number"
  | JStr _ => "string"
  end.

(** Property read on an object literal, [undefined] when the key is absent. *)
Fixpoint get (fields : list (string * json)) (key : string) : json :=
  match fields with
  | [] => JUndefined
  | (k, v) :: rest => if k =? key then v else get rest key
  end.

Definition of_N (n : N) : json := JNum (inject_Z (Z.of_N n)).

(** [s.split(sep)] for a one-character separator: every occurrence cuts, so
    two adjacent separators enclose an empty field and the empty string
    splits into one empty field. *)
Fixpoint split (sep : ascii) (s : string) : list string :=
  match s with
  | EmptyString => [EmptyString]
  | String c rest =>
      if Ascii.eqb c sep then EmptyString :: split sep rest
      else match split sep rest with
           | [] => [String c EmptyString]
           | field :: fields => String c field :: fields
           end
  end.

Definition lower_ascii (c : ascii) : ascii :=
  let n := nat_of_ascii c in
  if (65 <=? n)%nat && (n <=? 90)%nat then ascii_of_nat (n + 32) else c.

(** Lower-casing of the letters A-Z, every other character kept.  This is
    what [s.toLowerCase()] gives on a string of ASCII characters only; the
    method itself follows the Unicode case mappings and is a parameter of
    the routes.  The function below instantiates it where the model is run
    on ASCII data. *)
Fixpoint ascii_toLowerCase (s : string) : string :=
  match s with
  | EmptyString => EmptyString
  | String c rest => String (lower_ascii c) (ascii_toLowerCase rest)
  end.

(** [xs.includes(x)] on an array of strings. *)
Definition includes (xs : list string) (x : string) : bool :=
  existsb (String.eqb x) xs.

End JS.
Export JS.

(* ================================================================== *)
(** ** Results of effectful code *)

Inductive outcome (A : Type) : Type :=
| Done (a : A)
| Thrown (message : string).
Arguments Done {A} a.
Arguments Thrown {A} message.

(* ================================================================== *)
(** ** Password hasher *)

Module Bcrypt.

(** Modelled from the spec: [bcrypt.hash] and [bcrypt.compare] belong to the
    package bcryptjs, which is not part of the sources.  The spec (section
    4.1) has [hash] derive a slow one-way hash of (plaintext, salt) at a cost
    factor and return one value holding both salt and hash, and [verify]
    recompute the hash with the embedded salt and compare.  The derivation
    itself is the parameter [kdf]; the self-describing string is kept as the
    record [hash_string].  A plaintext that is not a string makes both calls
    fail. *)
Record hash_string : Type := mkHash
  { cost : N; salt : string; digest : string }.

Section Hasher.
Variable kdf : N -> string -> string -> string.

Definition illegal (v : json) (second : string) : string :=
  "Illegal arguments: " ++ typeof v ++ ", " ++ second.

Definition hash (plaintext : json) (rounds : N) (fresh_salt : string)
  : outcome hash_string :=
  match plaintext with
  | JStr p => Done (mkHash rounds fresh_salt (kdf rounds fresh_salt p))
  | _ => Thrown (illegal plaintext "number")
  end.

Definition compare (plaintext : json) (stored : hash_string) : outcome bool :=
  match plaintext with
  | JStr p => Done (digest stored =? kdf (cost stored) (salt stored) p)
  | _ => Thrown (illegal plaintext "string")
  end.
End Hasher.

End Bcrypt.

(* ================================================================== *)
(** ** Token issuer and verifier *)

Module Jwt.

Inductive VerificationError : Type :=
| SignatureInvalid
| Expired
| Malformed.

(** The claim set of a token: the identity put in by the login route and the
    two timestamps, in seconds. *)
Record claims : Type := mkClaims { userId : N; iat : N; exp : N }.

Definition dec (n : N) : string := NilEmpty.string_of_uint (N.to_uint n).
Definition undec (s : string) : option N :=
  option_map N.of_uint (NilEmpty.uint_of_string s).

(** Cut a string at its first full stop. *)
Fixpoint cut (s : string) : option (string * string) :=
  match s with
  | EmptyString => None
  | String c rest =>
      if Ascii.eqb c "." then Some (EmptyString, rest)
      else match cut rest with
           | Some (a, b) => Some (String c a, b)
           | None => None
           end
  end.

Definition content (c : claims) : string :=
  dec (userId c) ++ "." ++ dec (iat c) ++ "." ++ dec (exp c).

(** The signed part as received, the claims read from it, and the signature. *)
Definition decode (token : string) : option (string * claims * string) :=
  match cut token with
  | Some (a, r1) =>
      match cut r1 with
      | Some (b, r2) =>
          match cut r2 with
          | Some (c, tag) =>
              match undec a, undec b, undec c with
              | Some u, Some i, Some e =>
                  Some (a ++ "." ++ b ++ "." ++ c, mkClaims u i e, tag)
              | _, _, _ => None
              end
          | None => None
          end
      | None => None
      end
  | None => None
  end.

Definition unit_seconds (u : ascii) : option N :=
  if Ascii.eqb u "s" then Some 1%N
  else if Ascii.eqb u "m" then Some 60%N
  else if Ascii.eqb u "h" then Some 3600%N
  else if Ascii.eqb u "d" then Some 86400%N
  else None.

Fixpoint span_parts (s : string) : option (string * ascii) :=
  match s with
  | EmptyString => None
  | String c EmptyString => Some (EmptyString, c)
  | String c rest =>
      match span_parts rest with
      | Some (digits, u) => Some (String c digits, u)
      | None => None
      end
  end.

(** A time span such as ["1h"] in seconds: decimal digits and a unit. *)
Definition span_seconds (s : string) : option N :=
  match span_parts s with
  | Some (String d ds, u) =>
      match NilEmpty.uint_of_string (String d ds), unit_seconds u with
      | Some n, Some k => Some (N.of_uint n * k)%N
      | _, _ => None
      end
  | _ => None
  end.

(** Modelled from the spec: [jwt.sign] and [jwt.verify] belong to the
    package jsonwebtoken, which is not part of the sources.  The spec
    (section 4.2) has [issue] produce a signed token holding the claims and
    an expiry at issuance time plus the span, and [verify] check signature
    integrity and expiry and answer the claims or one of three errors.  The
    keyed signature function is the parameter [mac]; the wire format, which
    the spec leaves opaque, is here the three decimal claims and the
    signature separated by full stops. *)
Section Signer.
Variable mac : string -> string -> string.

Definition sign (user : N) (secret : string) (expiresIn : string) (now : N)
  : outcome string :=
  match span_seconds expiresIn with
  | Some span =>
      let body := content (mkClaims user now (now + span)) in
      Done (body ++ "." ++ mac secret body)
  | None =>
      Thrown "expiresIn should be a number of seconds or string representing a timespan"
  end.

Definition verify (token : string) (secret : string) (now : N)
  : claims + VerificationError :=
  match decode token with
  | None => inr Malformed
  | Some (body, c, tag) =>
      if tag =? mac secret body then
        if (now <? exp c)%N then inl c else inr Expired
      else inr SignatureInvalid
  end.
End Signer.

End Jwt.

(* ================================================================== *)
(** ** The database, the response object and the state of a request *)

Record user_row : Type := mkUser
  { u_id : N; u_name : json; u_email : json;
    u_password : Bcrypt.hash_string; u_created_at : N }.

Record food_row : Type := mkFood
  { f_id : N; f_food_name : json; f_serving_size : json; f_calories : json;
    f_protein : json; f_carbs : json; f_fat : json; f_is_custom : bool }.

Record log_row : Type := mkLog
  { l_id : N; l_user_id : N; l_food_id : json; l_food_name : json;
    l_meal_type : string; l_quantity : json; l_logged_at : N }.

(** Modelled from the spec: [pool] comes from [../db], which is not part of
    the sources.  The spec (section 2) calls it a relational database reached
    through parameterized queries; the tables and columns are those the
    queries of [routes/auth.js] name.  Rows keep the bound parameters as
    they were passed, ids count up from 1, and a column equals a parameter
    when both are scalars of one kind with the same value. *)
Record database : Type := mkDb
  { users : list user_row; foods : list food_row; logs : list log_row }.

Definition sql_eq (column param : json) : bool :=
  match column, param with
  | JStr a, JStr b => a =? b
  | JNum a, JNum b => Qeq_bool a b
  | JBool a, JBool b => Bool.eqb a b
  | _, _ => false
  end.

Definition next_id {A} (table : list A) : N := N.of_nat (length table) + 1.

(** [SELECT * FROM users WHERE email = $1] *)
Definition select_users_by_email (email : json) (d : database) : list user_row :=
  filter (fun u => sql_eq (u_email u) email) (users d).

(** [SELECT id, name, email FROM users WHERE id = $1] *)
Definition select_user_by_id (id : N) (d : database) : list user_row :=
  filter (fun u => (u_id u =? id)%N) (users d).

(** [SELECT food_name FROM foods WHERE id = $1] *)
Definition select_food_by_id (id : json) (d : database) : list food_row :=
  filter (fun f => sql_eq (of_N (f_id f)) id) (foods d).

(** [INSERT INTO users (name, email, password) ... RETURNING *] *)
Definition insert_user (name email : json) (password : Bcrypt.hash_string)
    (clock : N) (d : database) : user_row * database :=
  let row := mkUser (next_id (users d)) name email password clock in
  (row, mkDb (users d ++ [row])%list (foods d) (logs d)).

(** [INSERT INTO foods (...) VALUES ($1, ..., $7) RETURNING *] *)
Definition insert_food (food_name serving_size calories protein carbs fat : json)
    (is_custom : bool) (d : database) : food_row * database :=
  let row := mkFood (next_id (foods d)) food_name serving_size calories
                    protein carbs fat is_custom in
  (row, mkDb (users d) (foods d ++ [row])%list (logs d)).

(** [INSERT INTO daily_food_logs (...) VALUES ($1, ..., $5) RETURNING *] *)
Definition insert_log (user_id : N) (food_id food_name : json)
    (meal_type : string) (quantity : json) (clock : N) (d : database)
    : log_row * database :=
  let row := mkLog (next_id (logs d)) user_id food_id food_name meal_type
                   quantity clock in
  (row, mkDb (users d) (foods d) (logs d ++ [row])%list).

(** The Express response: [res.status] sets the code, [res.json] sends. *)
Record response : Type := mkRes { statusCode : nat; sent : option json }.

Definition fresh_response : response := mkRes 200 None.

(** What a request runs against.  [faults] decides, call by call, whether the
    next database or upstream call fails and with which message; [salts]
    feeds the hasher; [upstream] is the answer of the food-search provider to
    a query. *)
Record world : Type := mkWorld
  { db : database;
    faults : list (option string);
    salts : list string;
    now : N;
    upstream : json -> list json;
    res : response }.

Definition set_db (d : database) (w : world) : world :=
  mkWorld d (faults w) (salts w) (now w) (upstream w) (res w).
Definition set_faults (f : list (option string)) (w : world) : world :=
  mkWorld (db w) f (salts w) (now w) (upstream w) (res w).
Definition set_salts (s : list string) (w : world) : world :=
  mkWorld (db w) (faults w) s (now w) (upstream w) (res w).
Definition set_res (r : response) (w : world) : world :=
  mkWorld (db w) (faults w) (salts w) (now w) (upstream w) r.

(** State and exceptions. *)
Definition M (A : Type) : Type := world -> outcome A * world.

Definition ret {A} (a : A) : M A := fun w => (Done a, w).
Definition throw {A} (message : string) : M A := fun w => (Thrown message, w).
Definition bind {A B} (m : M A) (k : A -> M B) : M B :=
  fun w => match m w with
           | (Done a, w') => k a w'
           | (Thrown e, w') => (Thrown e, w')
           end.
Definition try_catch {A} (body : M A) (handler : string -> M A) : M A :=
  fun w => match body w with
           | (Done a, w') => (Done a, w')
           | (Thrown e, w') => handler e w'
           end.
Definition lift {A} (o : outcome A) : M A := fun w => (o, w).
Definition clock : M N := fun w => (Done (now w), w).

Notation "x <- m ;; k" := (bind m (fun x => k))
  (at level 61, m at next level, right associativity).
Notation "m ;; k" := (bind m (fun _ => k))
  (at level 61, right associativity).

Definition res_status (code : nat) : M unit :=
  fun w => (Done tt, set_res (mkRes code (sent (res w))) w).
Definition res_json (body : json) : M unit :=
  fun w => (Done tt, set_res (mkRes (statusCode (res w)) (Some body)) w).

(** One awaited call that can fail: the next entry of [faults] is consumed,
    and [Some message] rejects the call with that message. *)
Definition fallible {A} (run : world -> A * world) : M A :=
  fun w => match faults w with
           | Some message :: rest => (Thrown message, set_faults rest w)
           | None :: rest =>
               let (a, w') := run (set_faults rest w) in (Done a, w')
           | [] => let (a, w') := run w in (Done a, w')
           end.

Definition pool_select {A} (q : database -> list A) : M (list A) :=
  fallible (fun w => (q (db w), w)).
Definition pool_insert {A} (q : N -> database -> A * database) : M A :=
  fallible (fun w => let (row, d) := q (now w) (db w) in (row, set_db d w)).
Definition axios_get (query : json) : M (list json) :=
  fallible (fun w => (upstream w query, w)).
Definition fresh_salt : M string :=
  fun w => match salts w with
           | s :: rest => (Done s, set_salts rest w)
           | [] => (Done "", w)
           end.

Definition error_body (message : string) : json :=
  JObj [("error", JStr message)].

(** [a || b] *)
Definition or_else (a b : json) : json := if truthy a then a else b.

(** The Express request: header names are in lower case, as Node gives
    them; [user] is the property the guard sets. *)
Record request : Type := mkReq
  { headers : list (string * string);
    body : list (string * json);
    query : list (string * json);
    user : option Jwt.claims }.

Fixpoint header (hs : list (string * string)) (name : string) : option string :=
  match hs with
  | [] => None
  | (k, v) :: rest => if k =? name then Some v else header rest name
  end.

Definition set_user (c : Jwt.claims) (req : request) : request :=
  mkReq (headers req) (body req) (query req) (Some c).

(* ================================================================== *)
(** ** middleware/authMiddleware.js and routes/auth.js *)

(** [authHeader && authHeader.split(' ')[1]]: [undefined] and the empty
    header are falsy and are the token themselves. *)
Definition bearer (authHeader : option string) : option string :=
  match authHeader with
  | None => None
  | Some h => if h =? "" then Some "" else nth_error (split " " h) 1
  end.

(** [res.status(401).jso(...)]: the response object has no method [jso], so
    the call is a TypeError. *)
Definition res_jso (body : json) : M unit :=
  throw "res.status(...).jso is not a function".

Definition internal_error (message : string) : M unit :=
  res_status 500 ;; res_json (error_body message).

Definition validMealTypes : list string :=
  ["breakfast"; "lunch"; "dinner"; "snack"].

(** [meal_type.toLowerCase()]: only a string has the method.  The method
    is the built-in [String.prototype.toLowerCase], passed in as
    [toLowerCase]. *)
Definition call_toLowerCase (toLowerCase : string -> string) (v : json)
    : M string :=
  match v with
  | JStr s => ret (toLowerCase s)
  | _ => throw "meal_type.toLowerCase is not a function"
  end.

(** [item.id], [item.title], [item.image] *)
Definition prop (item : json) (key : string) : outcome json :=
  match item with
  | JObj fields => Done (get fields key)
  | JUndefined =>
      Thrown ("Cannot read properties of undefined (reading '" ++ key ++ "')")
  | JNull =>
      Thrown ("Cannot read properties of null (reading '" ++ key ++ "')")
  | _ => Done JUndefined
  end.

Definition project_item (item : json) : outcome json :=
  match prop item "id", prop item "title", prop item "image" with
  | Done i, Done t, Done g => Done (JObj [("id", i); ("title", t); ("image", g)])
  | Thrown e, _, _ | _, Thrown e, _ | _, _, Thrown e => Thrown e
  end.

Fixpoint project (items : list json) : outcome (list json) :=
  match items with
  | [] => Done []
  | item :: rest =>
      match project_item item, project rest with
      | Done r, Done rs => Done (r :: rs)
      | Thrown e, _ | _, Thrown e => Thrown e
      end
  end.

Definition user_json (u : user_row) : json :=
  JObj [("id", of_N (u_id u)); ("name", u_name u); ("email", u_email u)].

Definition food_json (f : food_row) : json :=
  JObj [("id", of_N (f_id f)); ("food_name", f_food_name f);
        ("serving_size", f_serving_size f); ("calories", f_calories f);
        ("protein", f_protein f); ("carbs", f_carbs f); ("fat", f_fat f);
        ("is_custom", JBool (f_is_custom f))].

Definition log_json (l : log_row) : json :=
  JObj [("id", of_N (l_id l)); ("user_id", of_N (l_user_id l));
        ("food_id", l_food_id l); ("food_name", l_food_name l);
        ("meal_type", JStr (l_meal_type l)); ("quantity", l_quantity l);
        ("logged_at", of_N (l_logged_at l))].

Section Routes.
(** The two packages, as the routes call them, and the configuration. *)
Variable jwt_sign : N -> string -> string -> N -> outcome string.
Variable jwt_verify :
  string -> string -> N -> Jwt.claims + Jwt.VerificationError.
Variable bcrypt_hash : json -> N -> string -> outcome Bcrypt.hash_string.
Variable bcrypt_compare : json -> Bcrypt.hash_string -> outcome bool.
Variable JWT_SECRET : string.
(** The built-in [String.prototype.toLowerCase]. *)
Variable toLowerCase : string -> string.

(** The branch of the guard taken when [!token] holds (lines 219-221 of the
    listing, in the middleware). *)
Definition no_token_branch : M unit :=
  res_status 401 ;; res_jso (error_body "Access denied, no token provided").

(** The [try] of the guard on a token (lines 223-229).  [jwt.verify] throwing is the [inr]
    case.  [next()] hands the request over to a handler that runs
    asynchronously, so nothing the handler throws comes back into this
    [try]. *)
Definition verify_branch (token : string) (req : request)
    (next : request -> M unit) : M unit :=
  t <- clock ;;
  match jwt_verify token JWT_SECRET t with
  | inl decoded => next (set_user decoded req)
  | inr _ => res_status 400 ;; res_json (error_body "Invalid token")
  end.

Definition authenticateToken (req : request) (next : request -> M unit)
    : M unit :=
  let authHeader := header (headers req) "authorization" in
  match bearer authHeader with
  | None => no_token_branch
  | Some token =>
      if token =? "" then no_token_branch
      else verify_branch token req next
  end.

(** [req.user.userId] *)
Definition req_userId (req : request) : M N :=
  match user req with
  | Some c => ret (Jwt.userId c)
  | None => throw "Cannot read properties of undefined (reading 'userId')"
  end.

(** [router.post('/register', ...)], routes/auth.js lines 14-39. *)
Definition register (req : request) : M unit :=
  let name := get (body req) "name" in
  let email := get (body req) "email" in
  let password := get (body req) "password" in
  try_catch
    (userExists <- pool_select (select_users_by_email email) ;;
     if (0 <? length userExists)%nat then
       res_status 400 ;; res_json (error_body "User already exists")
     else
       s <- fresh_salt ;;
       hashedPassword <- lift (bcrypt_hash password 10%N s) ;;
       newUser <- pool_insert (insert_user name email hashedPassword) ;;
       res_status 201 ;;
       res_json (JObj [("id", of_N (u_id newUser));
                       ("name", u_name newUser);
                       ("email", u_email newUser);
                       ("created_at", of_N (u_created_at newUser))]))
    internal_error.

(** [router.post('/login', ...)], lines 41-69. *)
Definition login (req : request) : M unit :=
  let email := get (body req) "email" in
  let password := get (body req) "password" in
  try_catch
    (rows <- pool_select (select_users_by_email email) ;;
     match rows with
     | [] => res_status 400 ;; res_json (error_body "Invalid email or password")
     | row :: _ =>
         isMatch <- lift (bcrypt_compare password (u_password row)) ;;
         if negb isMatch then
           res_status 400 ;; res_json (error_body "Invalid email or password")
         else
           t <- clock ;;
           token <- lift (jwt_sign (u_id row) JWT_SECRET "1h" t) ;;
           res_json (JObj [("token", JStr token); ("user", user_json row)])
     end)
    internal_error.

(** [router.get('/profile', authenticateToken, ...)], lines 71-78: the
    handler that runs after the guard. *)
Definition profile (req : request) : M unit :=
  try_catch
    (id <- req_userId req ;;
     rows <- pool_select (select_user_by_id id) ;;
     res_json (match rows with
               | [] => JUndefined
               | row :: _ => user_json row
               end))
    internal_error.

(** [router.get('/search', ...)], lines 80-109. *)
Definition search (req : request) : M unit :=
  let q := get (query req) "query" in
  if negb (truthy q) then
    res_status 400 ;; res_json (error_body "Query must be provided")
  else
    try_catch
      (products <- axios_get q ;;
       results <- lift (project products) ;;
       res_json (JArr results))
      internal_error.

(** [router.post('/add-food', authenticateToken, ...)], lines 111-130: the
    handler that runs after the guard. *)
Definition add_food (req : request) : M unit :=
  let food_name := get (body req) "food_name" in
  let serving_size := get (body req) "serving_size" in
  let calories := get (body req) "calories" in
  let protein := get (body req) "protein" in
  let carbs := get (body req) "carbs" in
  let fat := get (body req) "fat" in
  if negb (truthy food_name) || negb (truthy serving_size)
     || negb (truthy calories) then
    res_status 400 ;;
    res_json (error_body "Food name, serving size, and calories are required")
  else
    try_catch
      (newFood <- pool_insert (fun _ =>
         insert_food food_name serving_size calories
                     (or_else protein (JNum 0)) (or_else carbs (JNum 0))
                     (or_else fat (JNum 0)) true) ;;
       res_status 201 ;; res_json (food_json newFood))
      internal_error.

(** [router.post('/log-food', authenticateToken, ...)], lines 132-161: the
    handler that runs after the guard.  The validation and the choice of
    [type] come before the [try]. *)
Definition log_food (req : request) : M unit :=
  let food_id := get (body req) "food_id" in
  let meal_type := get (body req) "meal_type" in
  let quantity := get (body req) "quantity" in
  if negb (truthy food_id) || negb (truthy meal_type)
     || negb (truthy quantity) then
    res_status 400 ;;
    res_json (error_body "Food ID, meal type, and quantity are required")
  else
    lowered <- call_toLowerCase toLowerCase meal_type ;;
    let type := if includes validMealTypes lowered then lowered else "snack" in
    try_catch
      (food <- pool_select (select_food_by_id food_id) ;;
       match food with
       | [] => res_status 404 ;; res_json (error_body "Food not found")
       | row :: _ =>
           let foodName := f_food_name row in
           id <- req_userId req ;;
           newLog <- pool_insert (insert_log id food_id foodName type quantity) ;;
           res_status 201 ;; res_json (log_json newLog)
       end)
      internal_error.

(** The guarded routes as the router mounts them. *)
Definition route_profile (req : request) : M unit :=
  authenticateToken req profile.
Definition route_add_food (req : request) : M unit :=
  authenticateToken req add_food.
Definition route_log_food (req : request) : M unit :=
  authenticateToken req log_food.
End Routes.

(** [router.get('/daily-summary', authenticateToken, ...)], lines 163-204:
    the handler that runs after the guard.  The two aggregate queries are
    parameters: each maps the bound user id, the database clock and the
    database to the rows it returns.  [iso_date] stands for
    [new Date().toISOString().split('T')[0]]. *)
Section Summary.
Variable total_query : N -> N -> database -> list json.
Variable meal_query : N -> N -> database -> list json.
Variable iso_date : N -> string.

Definition daily_summary (req : request) : M unit :=
  try_catch
    (userId <- req_userId req ;;
     totalSummary <- fallible (fun w => (total_query userId (now w) (db w), w)) ;;
     mealSummary <- fallible (fun w => (meal_query userId (now w) (db w), w)) ;;
     let total := nth 0 totalSummary JUndefined in
     let meals := mealSummary in
     t <- clock ;;
     res_json (JObj [("date", JStr (iso_date t)); ("total", total);
                     ("meals", JArr meals)]))
    internal_error.

Definition route_daily_summary
    (jwt_verify : string -> string -> N -> Jwt.claims + Jwt.VerificationError)
    (JWT_SECRET : string) (req : request) : M unit :=
  authenticateToken jwt_verify JWT_SECRET req daily_summary.
End Summary.

(* ================================================================== *)
(** ** Predicates and sample data used in the statements *)

Fixpoint has_char (c : ascii) (s : string) : bool :=
  match s with
  | EmptyString => false
  | String x rest => Ascii.eqb x c || has_char c rest
  end.

(** The JSON number zero. *)
Definition is_zero (v : json) : bool :=
  match v with
  | JNum q => Qeq_bool q 0
  | _ => false
  end.

Definition valid_meal (l : log_row) : Prop := In (l_meal_type l) validMealTypes.

(** What [type] is bound to in the log-food route for a string [m]. *)
Definition coerced (toLowerCase : string -> string) (m : string) : string :=
  if includes validMealTypes (toLowerCase m) then toLowerCase m else "snack".

(** A value a numeric column reads as zero: the number 0, or a text
    parameter made of one or more digits 0.  The summary queries multiply
    [calories] by [quantity] (lines 169-172), so both columns are numeric. *)
Fixpoint all_zero_digits (s : string) : bool :=
  match s with
  | EmptyString => true
  | String c rest => Ascii.eqb c "0" && all_zero_digits rest
  end.

Definition zero_valued (v : json) : bool :=
  match v with
  | JNum q => Qeq_bool q 0
  | JStr s => negb (s =? "") && all_zero_digits s
  | _ => false
  end.

(** The record the log-food route inserts for a request with the string
    meal type [m], the claims [c] and the food record found. *)
Definition added_log (toLowerCase : string -> string) (req : request)
    (c : Jwt.claims) (food : food_row) (m : string) (w : world) : log_row :=
  mkLog (next_id (logs (db w))) (Jwt.userId c) (get (body req) "food_id")
        (f_food_name food) (coerced toLowerCase m) (get (body req) "quantity")
        (now w).

(** A response that was sent with the given status and [{error: message}]. *)
Definition rejected (code : nat) (message : string) (w : world) : world :=
  set_res (mkRes code (Some (error_body message))) w.

(** The token parses and carries the signature that [secret] gives to its
    signed part. *)
Definition signature_ok (mac : string -> string -> string)
    (token secret : string) : bool :=
  match Jwt.decode token with
  | Some (signed, _, tag) => tag =? mac secret signed
  | None => false
  end.

(** The token parses and the clock is before its expiry. *)
Definition unexpired (token : string) (clock_now : N) : bool :=
  match Jwt.decode token with
  | Some (_, c, _) => (clock_now <? Jwt.exp c)%N
  | None => false
  end.

(** The token that signing the claims [c] with [secret] gives. *)
Definition signed_token (mac : string -> string -> string)
    (c : Jwt.claims) (secret : string) : string :=
  Jwt.content c ++ "." ++ mac secret (Jwt.content c).

(** Stand-ins for the two keyed functions, for running the model. *)
Definition sample_mac (secret body : string) : string := secret ++ "#" ++ body.
Definition sample_kdf (rounds : N) (salt plaintext : string) : string :=
  salt ++ "#" ++ plaintext.

Definition empty_db : database := mkDb [] [] [].
Definition quiet (d : database) (t : N) : world :=
  mkWorld d [] [] t (fun _ => []) fresh_response.

Definition with_auth (value : string) : request :=
  mkReq [("authorization", value)] [] [] None.
Definition with_body (fields : list (string * json)) (c : Jwt.claims) : request :=
  mkReq [] fields [] (Some c).

(** A continuation that answers with the identity the guard attached. *)
Definition echo_user (req : request) : M unit :=
  match user req with
  | Some c => res_json (of_N (Jwt.userId c))
  | None => res_json JNull
  end.



(** No two user records have emails the lookup of the register route would
    match with each other. *)
Definition unique_emails (d : database) : Prop :=
  ForallOrdPairs (fun a b => sql_eq (u_email a) (u_email b) = false) (users d).

(** The record the register route inserts for a request, given the hash. *)
Definition registered (req : request) (h : Bcrypt.hash_string) (w : world)
    : user_row :=
  mkUser (next_id (users (db w))) (get (body req) "name")
         (get (body req) "email") h (now w).

(** The record the add-food route inserts for a request. *)
Definition added_food (req : request) (w : world) : food_row :=
  mkFood (next_id (foods (db w))) (get (body req) "food_name")
         (get (body req) "serving_size") (get (body req) "calories")
         (or_else (get (body req) "protein") (JNum 0))
         (or_else (get (body req) "carbs") (JNum 0))
         (or_else (get (body req) "fat") (JNum 0)) true.

(** What the login route answers with after a successful comparison. *)
Definition login_answer (signed : outcome string) (row : user_row)
    (before : response) : response :=
  match signed with
  | Done token =>
      mkRes (statusCode before)
            (Some (JObj [("token", JStr token); ("user", user_json row)]))
  | Thrown e => mkRes 500 (Some (error_body e))
  end.

(* ================================================================== *)
(** ** The authorization guard *)

Lemma rejected_twice code message w :
  (res_status code ;; res_json (error_body message)) w
  = (Done tt, rejected code message w).
Proof. reflexivity. Qed.

Lemma no_token_branch_throws w :
  no_token_branch w
  = (Thrown "res.status(...).jso is not a function",
     set_res (mkRes 401 (sent (res w))) w).
Proof. reflexivity. Qed.

(** C1, evaluated on the source: a request without an authorization header
    gets status code 401 set on the response object, but the method called
    next is [jso], which does not exist; the guard ends in a TypeError, no
    body is sent and the next stage is not run. *)
Theorem guard_without_header_throws :
  forall jwt_verify secret fields q u next w,
    authenticateToken jwt_verify secret (mkReq [] fields q u) next w
    = (Thrown "res.status(...).jso is not a function",
       set_res (mkRes 401 (sent (res w))) w)
    /\ sent (res (snd (authenticateToken jwt_verify secret
                         (mkReq [] fields q u) next w))) = sent (res w).
Proof.
  intros; split; reflexivity.
Qed.

Lemma split_no_sep sep s :
  has_char sep s = false -> split sep s = [s].
Proof.
  induction s as [|c s IH]; simpl; intros H; [reflexivity|].
  apply orb_false_iff in H as [Hc Hs].
  rewrite Hc, (IH Hs); reflexivity.
Qed.

Lemma split_second_field sep p r :
  has_char sep p = false ->
  nth_error (split sep (p ++ String sep r)) 1 = nth_error (split sep r) 0.
Proof.
  induction p as [|c p IH]; simpl; intros H.
  - rewrite Ascii.eqb_refl; reflexivity.
  - apply orb_false_iff in H as [Hc Hp].
    rewrite Hc. specialize (IH Hp).
    destruct (split sep (p ++ String sep r)) as [|f fs]; simpl in *; exact IH.
Qed.

Lemma bearer_scheme_token p t :
  has_char " " p = false -> has_char " " t = false ->
  bearer (Some (p ++ " " ++ t)) = nth_error [t] 0.
Proof.
  intros Hp Ht. unfold bearer.
  destruct (String.eqb_spec (p ++ " " ++ t) "") as [E|_].
  - destruct p; discriminate.
  - change (p ++ " " ++ t) with (p ++ String " " t).
    rewrite split_second_field by assumption.
    rewrite split_no_sep by assumption. reflexivity.
Qed.

(** C2 as stated fails: a header that does not start with [Bearer ] can
    still reach verification.  With a verifier that accepts the token [abc],
    the header [Basic abc] is let through. *)
Lemma guard_prefix_not_required :
  ~ (forall jwt_verify secret req next w h,
        header (headers req) "authorization" = Some h ->
        String.prefix "Bearer " h = false ->
        authenticateToken jwt_verify secret req next w = no_token_branch w).
Proof.
  intros claim.
  specialize (claim
    (fun token _ _ => if token =? "abc" then inl (Jwt.mkClaims 7 0 3600)
                      else inr Jwt.Malformed)
    "k" (with_auth "Basic abc") echo_user (quiet empty_db 10) "Basic abc"
    eq_refl eq_refl).
  vm_compute in claim. discriminate claim.
Qed.

(** C2, amended: the token is the second field of the header split at
    single spaces, whatever the first field is.  The guard takes the
    no-credential branch exactly when the header is absent or that field is
    absent or empty; otherwise the field goes to verification.  In
    particular a header made of any scheme word, one space and a non-empty
    token without spaces has that token verified. *)
Theorem guard_token_is_second_field :
  forall jwt_verify secret req next,
    authenticateToken jwt_verify secret req next
    = match header (headers req) "authorization" with
      | None => no_token_branch
      | Some h =>
          match nth_error (split " " h) 1 with
          | None => no_token_branch
          | Some token =>
              if token =? "" then no_token_branch
              else verify_branch jwt_verify secret token req next
          end
      end
    /\ forall scheme token,
        has_char " " scheme = false -> has_char " " token = false ->
        token <> "" ->
        header (headers req) "authorization" = Some (scheme ++ " " ++ token) ->
        authenticateToken jwt_verify secret req next
        = verify_branch jwt_verify secret token req next.
Proof.
  intros jwt_verify secret req next. split.
  - unfold authenticateToken, bearer.
    destruct (header (headers req) "authorization") as [h|]; [|reflexivity].
    destruct (String.eqb_spec h "") as [->|_]; reflexivity.
  - intros scheme token Hs Ht Hne Hh.
    unfold authenticateToken. rewrite Hh, bearer_scheme_token by assumption.
    simpl. apply String.eqb_neq in Hne. rewrite Hne. reflexivity.
Qed.

Lemma guard_token_is_second_field_witness :
  authenticateToken
    (fun token _ _ => if token =? "abc" then inl (Jwt.mkClaims 7 0 3600)
                      else inr Jwt.Malformed)
    "k" (with_auth "Basic abc") echo_user
  = verify_branch
      (fun token _ _ => if token =? "abc" then inl (Jwt.mkClaims 7 0 3600)
                        else inr Jwt.Malformed)
      "k" "abc" (with_auth "Basic abc") echo_user.
Proof.
  apply (proj2 (guard_token_is_second_field _ "k" (with_auth "Basic abc")
                  echo_user) "Basic" "abc");
    [reflexivity | reflexivity | discriminate | reflexivity].
Defined.

(** C5: on a request that carries a token, a failed verification ends the
    request with status 400 and [{error: 'Invalid token'}] and leaves
    everything else as it was; a successful one attaches the returned claims
    to the request and runs the next stage on it. *)
Theorem guard_verifies_token :
  forall jwt_verify secret req next w token,
    bearer (header (headers req) "authorization") = Some token ->
    token <> "" ->
    (forall e, jwt_verify token secret (now w) = inr e ->
       authenticateToken jwt_verify secret req next w
       = (Done tt, rejected 400 "Invalid token" w))
    /\ (forall c, jwt_verify token secret (now w) = inl c ->
       authenticateToken jwt_verify secret req next w
       = next (set_user c req) w
       /\ user (set_user c req) = Some c).
Proof.
  intros jwt_verify secret req next w token Hb Hne.
  apply String.eqb_neq in Hne.
  unfold authenticateToken, verify_branch. rewrite Hb, Hne.
  split; intros x Hx; unfold bind, clock; rewrite Hx.
  - reflexivity.
  - split; reflexivity.
Qed.

Lemma guard_verifies_token_witness :
  authenticateToken (Jwt.verify sample_mac) "k" (with_auth "Bearer 7.0.9.zz")
    echo_user (quiet empty_db 5)
  = (Done tt, rejected 400 "Invalid token" (quiet empty_db 5)).
Proof.
  apply (proj1 (guard_verifies_token (Jwt.verify sample_mac) "k"
                  (with_auth "Bearer 7.0.9.zz") echo_user (quiet empty_db 5)
                  "7.0.9.zz" eq_refl ltac:(discriminate))
               Jwt.SignatureInvalid).
  reflexivity.
Defined.

(* ================================================================== *)
(** ** Tokens: issue and verify *)

Lemma append_assoc (a b c : string) : (a ++ b) ++ c = a ++ (b ++ c).
Proof.
  induction a as [|x a IH]; simpl; [reflexivity | now rewrite IH].
Qed.

Lemma cut_at_first_stop a r :
  has_char "." a = false -> Jwt.cut (a ++ String "." r) = Some (a, r).
Proof.
  induction a as [|x a IH]; simpl; intros H; [reflexivity|].
  apply orb_false_iff in H as [Hx Ha].
  rewrite Hx, (IH Ha). reflexivity.
Qed.

Lemma digits_have_no_stop d :
  has_char "." (NilEmpty.string_of_uint d) = false.
Proof.
  induction d; simpl; auto.
Qed.

Lemma dec_has_no_stop n : has_char "." (Jwt.dec n) = false.
Proof. apply digits_have_no_stop. Qed.

Lemma undec_dec n : Jwt.undec (Jwt.dec n) = Some n.
Proof.
  unfold Jwt.undec, Jwt.dec.
  rewrite NilEmpty.usu. simpl. now rewrite DecimalN.Unsigned.of_to.
Qed.

Lemma three_fields_and_tag (a b c t : string) :
  (a ++ String "." (b ++ String "." c)) ++ String "." t
  = a ++ String "." (b ++ String "." (c ++ String "." t)).
Proof.
  rewrite append_assoc. simpl. rewrite append_assoc. reflexivity.
Qed.

Lemma decode_signed c tag :
  Jwt.decode (Jwt.content c ++ "." ++ tag) = Some (Jwt.content c, c, tag).
Proof.
  destruct c as [u i e]. unfold Jwt.decode, Jwt.content. simpl.
  rewrite three_fields_and_tag.
  rewrite !cut_at_first_stop by apply dec_has_no_stop.
  rewrite !undec_dec. reflexivity.
Qed.

Lemma span_one_hour : Jwt.span_seconds "1h" = Some 3600%N.
Proof. reflexivity. Qed.

Lemma verify_cases mac token secret t :
  Jwt.verify mac token secret t
  = match Jwt.decode token with
    | None => inr Jwt.Malformed
    | Some (_, c, _) =>
        if signature_ok mac token secret then
          if unexpired token t then inl c else inr Jwt.Expired
        else inr Jwt.SignatureInvalid
    end.
Proof.
  unfold Jwt.verify, signature_ok, unexpired.
  destruct (Jwt.decode token) as [[[signed c] tag]|]; reflexivity.
Qed.

(** C3: verification of a token string succeeds exactly when its signature
    is the one the server's secret gives and the clock is before its expiry.
    A correctly signed token at or after its expiry gives [Expired]; a token
    signed with another secret, whose signature differs from the one the
    server's secret gives, yields [SignatureInvalid].  The guard consults
    nothing else: on a request carrying the token it runs the next stage on
    the unchanged state when verification succeeds, whatever the database
    holds. *)
Theorem verify_iff_signature_and_expiry :
  forall mac token secret t,
    ((exists c, Jwt.verify mac token secret t = inl c)
       <-> signature_ok mac token secret = true /\ unexpired token t = true)
    /\ (signature_ok mac token secret = true -> unexpired token t = false ->
        Jwt.verify mac token secret t = inr Jwt.Expired)
    /\ (forall other c,
          token = signed_token mac c other ->
          mac other (Jwt.content c) <> mac secret (Jwt.content c) ->
          Jwt.verify mac token secret t = inr Jwt.SignatureInvalid)
    /\ (forall req next w,
          bearer (header (headers req) "authorization") = Some token ->
          token <> "" -> now w = t ->
          authenticateToken (Jwt.verify mac) secret req next w
          = match Jwt.verify mac token secret t with
            | inl c => next (set_user c req) w
            | inr _ => (Done tt, rejected 400 "Invalid token" w)
            end).
Proof.
  intros mac token secret t. split; [split|split; [|split]].
  - intros [c Hc]. rewrite verify_cases in Hc.
    destruct (Jwt.decode token) as [[[signed c'] tag]|]; [|discriminate].
    destruct (signature_ok mac token secret); [|discriminate].
    destruct (unexpired token t); [split; reflexivity|discriminate].
  - intros [Hs He]. rewrite verify_cases, Hs, He.
    unfold signature_ok in Hs.
    destruct (Jwt.decode token) as [[[signed c] tag]|]; [|discriminate].
    now exists c.
  - intros Hs He. rewrite verify_cases, Hs, He.
    unfold signature_ok in Hs.
    destruct (Jwt.decode token) as [[[signed c] tag]|]; [reflexivity|discriminate].
  - intros other c -> Hdiff. unfold Jwt.verify, signed_token.
    rewrite decode_signed.
    apply String.eqb_neq in Hdiff. rewrite Hdiff. reflexivity.
  - intros req next w Hb Hne <-.
    apply String.eqb_neq in Hne.
    unfold authenticateToken, verify_branch, bind, clock. rewrite Hb, Hne.
    destruct (Jwt.verify mac token secret (now w)); reflexivity.
Qed.

Lemma verify_iff_signature_and_expiry_witness :
  Jwt.verify sample_mac "7.0.9.other#7.0.9" "k" 5 = inr Jwt.SignatureInvalid.
Proof.
  apply (proj1 (proj2 (proj2
           (verify_iff_signature_and_expiry sample_mac "7.0.9.other#7.0.9" "k" 5)))
           "other" (Jwt.mkClaims 7 0 9));
    [reflexivity | discriminate].
Defined.

(** C4: the token issued for user [U] at time [t] with the span ["1h"] of the
    login route carries the expiry [t + 3600] seconds, and verifying it at
    [t] with the same secret answers the claims with [userId = U]. *)
Theorem issue_then_verify :
  forall mac U secret t,
    exists token,
      Jwt.sign mac U secret "1h" t = Done token
      /\ Jwt.decode token
         = Some (Jwt.content (Jwt.mkClaims U t (t + 3600)),
                 Jwt.mkClaims U t (t + 3600),
                 mac secret (Jwt.content (Jwt.mkClaims U t (t + 3600))))
      /\ Jwt.verify mac token secret t = inl (Jwt.mkClaims U t (t + 3600))
      /\ Jwt.userId (Jwt.mkClaims U t (t + 3600)) = U.
Proof.
  intros mac U secret t.
  exists (signed_token mac (Jwt.mkClaims U t (t + 3600)) secret).
  repeat split.
  - unfold signed_token. apply decode_signed.
  - unfold Jwt.verify, signed_token. rewrite decode_signed, String.eqb_refl.
    simpl. replace (t <? t + 3600)%N with true; [reflexivity|].
    symmetry. apply N.ltb_lt. lia.
Qed.

(** The window of an issued token: accepted strictly before its expiry, and
    answered with [Expired] from then on. *)
Lemma issued_token_window mac U secret t later :
  Jwt.verify mac (signed_token mac (Jwt.mkClaims U t (t + 3600)) secret)
             secret later
  = if (later <? t + 3600)%N then inl (Jwt.mkClaims U t (t + 3600))
    else inr Jwt.Expired.
Proof.
  unfold Jwt.verify, signed_token.
  rewrite decode_signed, String.eqb_refl. reflexivity.
Qed.

(** Register, log in, and use the token on a guarded route: accepted within
    the hour, refused with status 400 after it. *)
Example login_then_profile :
  let creds := [("name", JStr "Ann"); ("email", JStr "a@b.com");
                ("password", JStr "pw")] in
  let w1 := snd (register (Bcrypt.hash sample_kdf) (mkReq [] creds [] None)
                   (quiet empty_db 100)) in
  let w2 := snd (login (Jwt.sign sample_mac) (Bcrypt.compare sample_kdf) "k"
                   (mkReq [] creds [] None) (set_res fresh_response w1)) in
  let call w := res (snd (route_profile (Jwt.verify sample_mac) "k"
                       (with_auth "Bearer 1.100.3700.k#1.100.3700") w)) in
  sent (res w2)
  = Some (JObj [("token", JStr "1.100.3700.k#1.100.3700");
                ("user", JObj [("id", of_N 1); ("name", JStr "Ann");
                               ("email", JStr "a@b.com")])])
  /\ call (set_res fresh_response w2)
     = mkRes 200 (Some (JObj [("id", of_N 1); ("name", JStr "Ann");
                              ("email", JStr "a@b.com")]))
  /\ call (mkWorld (db w2) [] [] 3700 (fun _ => []) fresh_response)
     = mkRes 400 (Some (error_body "Invalid token")).
Proof. vm_compute. repeat split. Qed.

(* ================================================================== *)
(** ** Registration *)

Lemma select_nonempty_length {A} (rows : list A) :
  rows <> [] -> (0 <? length rows)%nat = true.
Proof. destruct rows; [congruence | reflexivity]. Qed.

(** C6: when the lookup by email answers and finds a user record, the
    register route ends with status 400 and [{error: 'User already exists'}]
    and the database is the one it started from: no record is added. *)
Theorem register_existing_email :
  forall bcrypt_hash req w,
    hd None (faults w) = None ->
    select_users_by_email (get (body req) "email") (db w) <> [] ->
    exists w',
      register bcrypt_hash req w = (Done tt, w')
      /\ res w' = mkRes 400 (Some (error_body "User already exists"))
      /\ db w' = db w
      /\ users (db w') = users (db w).
Proof.
  intros bcrypt_hash req w Hf Hrows.
  apply select_nonempty_length in Hrows.
  unfold register, try_catch, bind, pool_select, fallible.
  destruct (faults w) as [|[message|] rest]; simpl in *;
    try discriminate; rewrite Hrows; simpl;
    eexists; repeat split; reflexivity.
Qed.

Lemma register_existing_email_witness :
  exists w',
    register (Bcrypt.hash sample_kdf)
      (mkReq [] [("name", JStr "Ann"); ("email", JStr "a@b.com");
                 ("password", JStr "pw")] [] None)
      (quiet (mkDb [mkUser 1 (JStr "Ann") (JStr "a@b.com")
                      (Bcrypt.mkHash 10 "s" "s#pw") 0] [] []) 100)
    = (Done tt, w')
    /\ res w' = mkRes 400 (Some (error_body "User already exists"))
    /\ db w' = mkDb [mkUser 1 (JStr "Ann") (JStr "a@b.com")
                       (Bcrypt.mkHash 10 "s" "s#pw") 0] [] []
    /\ users (db w') = [mkUser 1 (JStr "Ann") (JStr "a@b.com")
                          (Bcrypt.mkHash 10 "s" "s#pw") 0].
Proof.
  apply (register_existing_email (Bcrypt.hash sample_kdf)
           (mkReq [] [("name", JStr "Ann"); ("email", JStr "a@b.com");
                      ("password", JStr "pw")] [] None)
           (quiet (mkDb [mkUser 1 (JStr "Ann") (JStr "a@b.com")
                           (Bcrypt.mkHash 10 "s" "s#pw") 0] [] []) 100)).
  - reflexivity.
  - vm_compute. discriminate.
Defined.

(** A first registration does create the record, so the theorem above is
    about the second one. *)
Example register_then_register_again :
  let req := mkReq [] [("name", JStr "Ann"); ("email", JStr "a@b.com");
                       ("password", JStr "pw")] [] None in
  let w1 := snd (register (Bcrypt.hash sample_kdf) req (quiet empty_db 100)) in
  let w2 := snd (register (Bcrypt.hash sample_kdf) req
                   (set_res fresh_response w1)) in
  length (users (db w1)) = 1%nat
  /\ statusCode (res w1) = 201%nat
  /\ length (users (db w2)) = 1%nat
  /\ res w2 = mkRes 400 (Some (error_body "User already exists")).
Proof. vm_compute. repeat split. Qed.

(* ================================================================== *)
(** ** Errors at the handler boundary *)

Lemma caught_never_throws (body : M unit) w :
  fst (try_catch body internal_error w) = Done tt.
Proof.
  unfold try_catch. destruct (body w) as [[[]|e] w']; reflexivity.
Qed.

Lemma register_never_throws bcrypt_hash req w :
  fst (register bcrypt_hash req w) = Done tt.
Proof. apply caught_never_throws. Qed.

Lemma login_never_throws jwt_sign bcrypt_compare secret req w :
  fst (login jwt_sign bcrypt_compare secret req w) = Done tt.
Proof. apply caught_never_throws. Qed.

Lemma profile_never_throws req w : fst (profile req w) = Done tt.
Proof. apply caught_never_throws. Qed.

Lemma search_never_throws req w : fst (search req w) = Done tt.
Proof.
  unfold search. destruct (negb (truthy (get (query req) "query")));
    [reflexivity | apply caught_never_throws].
Qed.

Lemma add_food_never_throws req w : fst (add_food req w) = Done tt.
Proof.
  unfold add_food.
  destruct (negb (truthy (get (body req) "food_name"))
            || negb (truthy (get (body req) "serving_size"))
            || negb (truthy (get (body req) "calories")));
    [reflexivity | apply caught_never_throws].
Qed.

(** A failing first query of the register route is answered with status 500
    and the message of the failure. *)
Lemma register_database_failure bcrypt_hash req w message rest :
  faults w = Some message :: rest ->
  register bcrypt_hash req w
  = (Done tt, rejected 500 message (set_faults rest w)).
Proof.
  intros Hf. unfold register, try_catch, bind, pool_select, fallible.
  rewrite Hf. reflexivity.
Qed.

(** The same for the upstream call of the search route. *)
Lemma search_upstream_failure req w message rest :
  truthy (get (query req) "query") = true ->
  faults w = Some message :: rest ->
  search req w = (Done tt, rejected 500 message (set_faults rest w)).
Proof.
  intros Hq Hf. unfold search. rewrite Hq. simpl.
  unfold try_catch, bind, axios_get, fallible. rewrite Hf. reflexivity.
Qed.

(** The log-food route throws exactly on a request whose three required
    fields are truthy and whose meal type is not a string. *)
Lemma log_food_throws_iff toLowerCase req w :
  (exists e, fst (log_food toLowerCase req w) = Thrown e)
  <-> truthy (get (body req) "food_id") = true
      /\ truthy (get (body req) "meal_type") = true
      /\ truthy (get (body req) "quantity") = true
      /\ forall m, get (body req) "meal_type" <> JStr m.
Proof.
  unfold log_food.
  destruct (truthy (get (body req) "food_id")); simpl;
    [|split; [intros [e He]; discriminate | intros [H _]; discriminate]].
  destruct (truthy (get (body req) "meal_type")) eqn:Hm; simpl;
    [|split; [intros [e He]; discriminate | intros (_ & H & _); discriminate]].
  destruct (truthy (get (body req) "quantity")); simpl;
    [|split; [intros [e He]; discriminate | intros (_ & _ & H & _); discriminate]].
  destruct (get (body req) "meal_type") as [| |b|q|m|items|fields];
    try (split; [intros _; repeat split; intros m'; discriminate
                | intros _; eexists; reflexivity]).
  split.
  - intros [e He]. unfold bind, call_toLowerCase, ret in He.
    rewrite caught_never_throws in He. discriminate.
  - intros (_ & _ & _ & H). now elim (H m).
Qed.

(** C9, evaluated on the source: the log-food route calls
    [meal_type.toLowerCase()] before its [try] opens.  A body whose meal
    type is the number 5 makes that call a TypeError, which leaves the
    handler uncaught: no response is sent and the state is untouched. *)
Theorem log_food_type_error_escapes :
  forall toLowerCase c w,
    log_food toLowerCase
      (with_body [("food_id", JNum 1); ("meal_type", JNum 5);
                  ("quantity", JNum 1)] c) w
    = (Thrown "meal_type.toLowerCase is not a function", w).
Proof. intros toLowerCase c w. reflexivity. Qed.

(** The same request through the mounted route, with a token that verifies. *)
Example route_log_food_type_error :
  fst (route_log_food (Jwt.verify sample_mac) "k" ascii_toLowerCase
         (mkReq [("authorization", "Bearer 1.100.3700.k#1.100.3700")]
                [("food_id", JNum 1); ("meal_type", JNum 5);
                 ("quantity", JNum 1)] [] None)
         (quiet empty_db 200))
  = Thrown "meal_type.toLowerCase is not a function".
Proof. reflexivity. Qed.

(* ================================================================== *)
(** ** The food endpoints *)

Lemma includes_in xs x : includes xs x = true -> In x xs.
Proof.
  unfold includes. intros H. apply existsb_exists in H as (y & Hy & E).
  apply String.eqb_eq in E. now subst.
Qed.

Lemma coerced_valid toLowerCase m : In (coerced toLowerCase m) validMealTypes.
Proof.
  unfold coerced.
  destruct (includes validMealTypes (toLowerCase m)) eqn:E.
  - now apply includes_in.
  - simpl; auto.
Qed.

Lemma coerced_unknown toLowerCase m :
  includes validMealTypes (toLowerCase m) = false ->
  coerced toLowerCase m = "snack".
Proof. unfold coerced. now intros ->. Qed.

Lemma coerced_known toLowerCase m :
  includes validMealTypes (toLowerCase m) = true ->
  coerced toLowerCase m = toLowerCase m.
Proof. unfold coerced. now intros ->. Qed.

(** What the log-food handler does to the table of logs: nothing, or one
    row appended, built from the request. *)
Lemma log_food_effect toLowerCase req w :
  logs (db (snd (log_food toLowerCase req w))) = logs (db w)
  \/ exists m row,
       get (body req) "meal_type" = JStr m
       /\ logs (db (snd (log_food toLowerCase req w)))
          = (logs (db w) ++ [row])%list
       /\ l_meal_type row = coerced toLowerCase m
       /\ l_quantity row = get (body req) "quantity"
       /\ truthy (get (body req) "quantity") = true
       /\ l_food_id row = get (body req) "food_id"
       /\ truthy (get (body req) "food_id") = true.
Proof.
  unfold log_food.
  destruct (truthy (get (body req) "food_id")) eqn:Hid; simpl; [|now left].
  destruct (truthy (get (body req) "meal_type")); simpl; [|now left].
  destruct (truthy (get (body req) "quantity")) eqn:Hq; simpl; [|now left].
  destruct (get (body req) "meal_type") as [| |b|q|m|items|fields];
    try (now left).
  unfold bind, call_toLowerCase, ret, try_catch, pool_select, pool_insert,
    fallible, req_userId.
  fold (coerced toLowerCase m).
  remember (coerced toLowerCase m) as type eqn:Htype.
  destruct (faults w) as [|[message|] rest] eqn:Hf; simpl; try (now left).
  - destruct (select_food_by_id _ (db w)) as [|food others]; simpl;
      [now left|].
    destruct (user req) as [c|]; simpl; [|now left].
    rewrite Hf. simpl.
    right. eexists m, _. repeat split; try assumption.
  - destruct (select_food_by_id _ (db w)) as [|food others]; simpl;
      [now left|].
    destruct (user req) as [c|]; simpl; [|now left].
    destruct rest as [|[message|] rest]; simpl; try (now left);
      right; eexists m, _; repeat split; try assumption.
Qed.

(** A request with all three fields, a string meal type, claims attached,
    a food record found and no failing query is answered with 201 and
    stores one record. *)
Lemma log_food_on_string toLowerCase req w c food others m :
  truthy (get (body req) "food_id") = true ->
  get (body req) "meal_type" = JStr m -> m <> "" ->
  truthy (get (body req) "quantity") = true ->
  user req = Some c ->
  hd None (faults w) = None -> hd None (tl (faults w)) = None ->
  select_food_by_id (get (body req) "food_id") (db w) = food :: others ->
  fst (log_food toLowerCase req w) = Done tt
  /\ db (snd (log_food toLowerCase req w))
     = mkDb (users (db w)) (foods (db w))
            (logs (db w) ++ [added_log toLowerCase req c food m w])%list
  /\ res (snd (log_food toLowerCase req w))
     = mkRes 201 (Some (log_json (added_log toLowerCase req c food m w))).
Proof.
  intros Hid Hm Hne Hq Hu Hf1 Hf2 Hsel.
  apply String.eqb_neq in Hne.
  unfold log_food. rewrite Hid, Hq, Hm. simpl. rewrite Hne. simpl.
  unfold bind, call_toLowerCase, ret, try_catch, pool_select, pool_insert,
    fallible, req_userId, added_log, coerced.
  destruct (faults w) as [|[message|] rest] eqn:Hf; simpl in *;
    try discriminate; rewrite Hsel; simpl; rewrite Hu; simpl.
  - rewrite Hf. simpl. repeat split.
  - destruct rest as [|[message|] rest]; simpl in *; try discriminate;
      repeat split.
Qed.

(** C7, evaluated on the source.  On a request with a food id, a quantity
    and claims, whose food exists and whose queries answer: a meal type
    that is a string is lower-cased and stored, as it is when the result is
    one of breakfast, lunch, dinner and snack, and as [snack] otherwise; a
    truthy meal type that is not a string, which is not one of the four
    either, is not coerced: [meal_type.toLowerCase()] is a TypeError, no
    record is stored and no response is sent. *)
Theorem log_food_coerces_strings_only :
  forall toLowerCase req w c food others,
    truthy (get (body req) "food_id") = true ->
    truthy (get (body req) "quantity") = true ->
    user req = Some c ->
    hd None (faults w) = None -> hd None (tl (faults w)) = None ->
    select_food_by_id (get (body req) "food_id") (db w) = food :: others ->
    (forall m,
        get (body req) "meal_type" = JStr m -> m <> "" ->
        exists row,
          fst (log_food toLowerCase req w) = Done tt
          /\ logs (db (snd (log_food toLowerCase req w)))
             = (logs (db w) ++ [row])%list
          /\ statusCode (res (snd (log_food toLowerCase req w))) = 201%nat
          /\ (includes validMealTypes (toLowerCase m) = true ->
              l_meal_type row = toLowerCase m)
          /\ (includes validMealTypes (toLowerCase m) = false ->
              l_meal_type row = "snack")
          /\ valid_meal row)
    /\ (truthy (get (body req) "meal_type") = true ->
        (forall m, get (body req) "meal_type" <> JStr m) ->
        log_food toLowerCase req w
        = (Thrown "meal_type.toLowerCase is not a function", w)).
Proof.
  intros toLowerCase req w c food others Hid Hq Hu Hf1 Hf2 Hsel. split.
  - intros m Hm Hne.
    destruct (log_food_on_string toLowerCase req w c food others m
                Hid Hm Hne Hq Hu Hf1 Hf2 Hsel) as (Hdone & Hdb & Hres).
    exists (added_log toLowerCase req c food m w).
    rewrite Hdone, Hdb, Hres. repeat split.
    + apply coerced_known.
    + apply coerced_unknown.
    + apply coerced_valid.
  - intros Ht Hnot. unfold log_food. rewrite Hid, Hq, Ht. simpl.
    destruct (get (body req) "meal_type") as [| |b|q|m|items|fields];
      try reflexivity.
    now elim (Hnot m).
Qed.

Lemma log_food_coerces_strings_only_witness :
  log_food ascii_toLowerCase
    (with_body [("food_id", JNum 1); ("meal_type", JNum 5);
                ("quantity", JNum 2)] (Jwt.mkClaims 1 0 3600))
    (quiet (mkDb [] [mkFood 1 (JStr "egg") (JStr "1") (JNum 100)
                       (JNum 0) (JNum 0) (JNum 0) true] []) 50)
  = (Thrown "meal_type.toLowerCase is not a function",
     quiet (mkDb [] [mkFood 1 (JStr "egg") (JStr "1") (JNum 100)
                       (JNum 0) (JNum 0) (JNum 0) true] []) 50).
Proof.
  apply (proj2 (log_food_coerces_strings_only ascii_toLowerCase
           (with_body [("food_id", JNum 1); ("meal_type", JNum 5);
                       ("quantity", JNum 2)] (Jwt.mkClaims 1 0 3600))
           (quiet (mkDb [] [mkFood 1 (JStr "egg") (JStr "1") (JNum 100)
                              (JNum 0) (JNum 0) (JNum 0) true] []) 50)
           (Jwt.mkClaims 1 0 3600)
           (mkFood 1 (JStr "egg") (JStr "1") (JNum 100)
                   (JNum 0) (JNum 0) (JNum 0) true) []
           eq_refl eq_refl eq_refl eq_refl eq_refl eq_refl)).
  - reflexivity.
  - intros m. discriminate.
Defined.

(** An unknown meal type, an upper-case one and a number, run through the
    handler on ASCII data: [snack], [lunch], and nothing stored. *)
Example log_food_stores_snack :
  let d := mkDb [] [mkFood 1 (JStr "egg") (JStr "1") (JNum 100)
                      (JNum 0) (JNum 0) (JNum 0) true] [] in
  let stored v :=
    map l_meal_type
      (logs (db (snd (log_food ascii_toLowerCase
         (with_body [("food_id", JNum 1); ("meal_type", v);
                     ("quantity", JNum 2)] (Jwt.mkClaims 1 0 3600))
         (quiet d 50))))) in
  stored (JStr "Brunch") = ["snack"] /\ stored (JStr "LUNCH") = ["lunch"]
  /\ stored (JNum 5) = [].
Proof. vm_compute. repeat split. Qed.

Lemma is_zero_falsy v : is_zero v = true -> truthy v = false.
Proof.
  destruct v; simpl; try discriminate. now intros ->.
Qed.

Lemma truthy_not_zero v : truthy v = true -> is_zero v = false.
Proof.
  destruct (is_zero v) eqn:E; [|reflexivity].
  apply is_zero_falsy in E. congruence.
Qed.

(** What the add-food handler does to the table of foods. *)
Lemma add_food_effect req w :
  foods (db (snd (add_food req w))) = foods (db w)
  \/ exists row,
       foods (db (snd (add_food req w))) = (foods (db w) ++ [row])%list
       /\ truthy (f_food_name row) = true
       /\ truthy (f_serving_size row) = true
       /\ truthy (f_calories row) = true.
Proof.
  unfold add_food.
  destruct (truthy (get (body req) "food_name")) eqn:Hn; simpl; [|now left].
  destruct (truthy (get (body req) "serving_size")) eqn:Hs; simpl; [|now left].
  destruct (truthy (get (body req) "calories")) eqn:Hc; simpl; [|now left].
  unfold try_catch, bind, pool_insert, fallible.
  destruct (faults w) as [|[message|] rest]; simpl; try (now left);
    right; eexists; repeat split; assumption.
Qed.

(** The guard either hands the request, with claims attached, to the next
    stage on the state it was given, or ends without touching the database. *)
Lemma guard_next_or_same_db jwt_verify secret req next w :
  (exists c, authenticateToken jwt_verify secret req next w
             = next (set_user c req) w)
  \/ db (snd (authenticateToken jwt_verify secret req next w)) = db w.
Proof.
  unfold authenticateToken.
  destruct (bearer (header (headers req) "authorization")) as [token|];
    [|now right].
  destruct (token =? ""); [now right|].
  unfold verify_branch, bind, clock.
  destruct (jwt_verify token secret (now w)) as [c|e];
    [left; now exists c | now right].
Qed.

(** A request with the three required fields truthy and an answering
    database gets its food stored as passed. *)
Lemma add_food_on_truthy req w :
  truthy (get (body req) "food_name") = true ->
  truthy (get (body req) "serving_size") = true ->
  truthy (get (body req) "calories") = true ->
  hd None (faults w) = None ->
  db (snd (add_food req w))
  = mkDb (users (db w)) (foods (db w) ++ [added_food req w])%list (logs (db w))
  /\ res (snd (add_food req w)) = mkRes 201 (Some (food_json (added_food req w))).
Proof.
  intros Hn Hs Hc Hf. unfold add_food. rewrite Hn, Hs, Hc. simpl.
  unfold try_catch, bind, pool_insert, fallible, added_food.
  destruct (faults w) as [|[message|] rest]; simpl in *; try discriminate;
    split; reflexivity.
Qed.

(** C10 as stated fails: the test at lines 114 and 135 is falsiness, and
    the string ["0"] is truthy.  A guarded add-food request with calories
    ["0"] is answered with 201 and its food is stored with that value, which
    the numeric column reads as zero. *)
Lemma zero_text_passes_the_check :
  ~ (forall jwt_verify secret req w f,
        In f (foods (db (snd (route_add_food jwt_verify secret req w)))) ->
        In f (foods (db w)) \/ zero_valued (f_calories f) = false).
Proof.
  intros claim.
  specialize (claim (Jwt.verify sample_mac) "k"
    (mkReq [("authorization", "Bearer 1.100.3700.k#1.100.3700")]
           [("food_name", JStr "water"); ("serving_size", JStr "1 cup");
            ("calories", JStr "0")] [] None)
    (quiet empty_db 200)
    (mkFood 1 (JStr "water") (JStr "1 cup") (JStr "0")
            (JNum 0) (JNum 0) (JNum 0) true)).
  destruct claim as [[]|Hzero].
  - vm_compute. left. reflexivity.
  - vm_compute in Hzero. discriminate Hzero.
Qed.

(** C10, amended: a required numeric field that is the number 0 is falsy,
    so the add-food handler answers a body with [calories] or
    [serving_size] 0, and the log-food handler a body with [quantity] 0,
    with status 400 and the message for missing fields, changing nothing
    else.  Every food added through the guarded add-food route has a
    truthy name, serving size and calories, and every log added through
    the guarded log-food route a truthy food id and quantity; so none of
    these is the number 0.  A truthy value is stored as it was passed: a
    request whose calories, or quantity, is a non-empty string such as
    ["0"] passes the check and that string is what the new record holds. *)
Theorem falsy_fields_rejected :
  forall jwt_verify secret toLowerCase req w,
    (is_zero (get (body req) "calories") = true
     \/ is_zero (get (body req) "serving_size") = true ->
     add_food req w
     = (Done tt,
        rejected 400 "Food name, serving size, and calories are required" w))
    /\ (is_zero (get (body req) "quantity") = true ->
        log_food toLowerCase req w
        = (Done tt,
           rejected 400 "Food ID, meal type, and quantity are required" w))
    /\ (forall f,
          In f (foods (db (snd (route_add_food jwt_verify secret req w)))) ->
          In f (foods (db w))
          \/ (truthy (f_food_name f) = true
              /\ truthy (f_serving_size f) = true
              /\ truthy (f_calories f) = true
              /\ is_zero (f_calories f) = false
              /\ is_zero (f_serving_size f) = false))
    /\ (forall l,
          In l (logs (db (snd (route_log_food jwt_verify secret toLowerCase
                                req w)))) ->
          In l (logs (db w))
          \/ (truthy (l_food_id l) = true
              /\ truthy (l_quantity l) = true
              /\ is_zero (l_quantity l) = false))
    /\ (forall s,
          get (body req) "calories" = JStr s -> s <> "" ->
          truthy (get (body req) "food_name") = true ->
          truthy (get (body req) "serving_size") = true ->
          hd None (faults w) = None ->
          exists f,
            foods (db (snd (add_food req w))) = (foods (db w) ++ [f])%list
            /\ f_calories f = JStr s
            /\ statusCode (res (snd (add_food req w))) = 201%nat)
    /\ (forall s c food others m,
          get (body req) "quantity" = JStr s -> s <> "" ->
          truthy (get (body req) "food_id") = true ->
          get (body req) "meal_type" = JStr m -> m <> "" ->
          user req = Some c ->
          hd None (faults w) = None -> hd None (tl (faults w)) = None ->
          select_food_by_id (get (body req) "food_id") (db w)
          = food :: others ->
          exists l,
            logs (db (snd (log_food toLowerCase req w)))
            = (logs (db w) ++ [l])%list
            /\ l_quantity l = JStr s
            /\ statusCode (res (snd (log_food toLowerCase req w))) = 201%nat).
Proof.
  intros jwt_verify secret toLowerCase req w.
  split; [|split; [|split; [|split; [|split]]]].
  - intros H. unfold add_food.
    assert (E : negb (truthy (get (body req) "food_name"))
                || negb (truthy (get (body req) "serving_size"))
                || negb (truthy (get (body req) "calories")) = true).
    { destruct H as [H|H]; apply is_zero_falsy in H; rewrite H;
        destruct (truthy (get (body req) "food_name")); simpl;
        try reflexivity; apply orb_true_r. }
    rewrite E. reflexivity.
  - intros H. apply is_zero_falsy in H. unfold log_food. rewrite H.
    simpl. rewrite orb_true_r. reflexivity.
  - intros f Hin. unfold route_add_food in Hin.
    destruct (guard_next_or_same_db jwt_verify secret req add_food w)
      as [[c Hc]|Hsame].
    + rewrite Hc in Hin.
      destruct (add_food_effect (set_user c req) w)
        as [Same|(row & Hrow & Hn & Hs & Hcal)].
      * left. now rewrite Same in Hin.
      * rewrite Hrow in Hin. apply in_app_or in Hin as [Hold|[<-|[]]].
        -- now left.
        -- right. repeat split; try assumption; now apply truthy_not_zero.
    + left. now rewrite Hsame in Hin.
  - intros l Hin. unfold route_log_food in Hin.
    destruct (guard_next_or_same_db jwt_verify secret req
                (log_food toLowerCase) w) as [[c Hc]|Hsame].
    + rewrite Hc in Hin.
      destruct (log_food_effect toLowerCase (set_user c req) w)
        as [Same|(m & row & _ & Hrow & _ & Hq & Ht & Hid & Hidt)].
      * left. now rewrite Same in Hin.
      * rewrite Hrow in Hin. apply in_app_or in Hin as [Hold|[<-|[]]].
        -- now left.
        -- right. rewrite Hq, Hid. repeat split; try assumption.
           now apply truthy_not_zero.
    + left. now rewrite Hsame in Hin.
  - intros s Hcal Hne Hn Hs Hf.
    assert (Ht : truthy (get (body req) "calories") = true).
    { rewrite Hcal. simpl. apply String.eqb_neq in Hne. now rewrite Hne. }
    destruct (add_food_on_truthy req w Hn Hs Ht Hf) as [Hdb Hres].
    exists (added_food req w). rewrite Hdb, Hres. repeat split.
    exact Hcal.
  - intros s c food others m Hqs Hne Hid Hm Hmne Hu Hf1 Hf2 Hsel.
    assert (Hq : truthy (get (body req) "quantity") = true).
    { rewrite Hqs. simpl. apply String.eqb_neq in Hne. now rewrite Hne. }
    destruct (log_food_on_string toLowerCase req w c food others m
                Hid Hm Hmne Hq Hu Hf1 Hf2 Hsel) as (_ & Hdb & Hres).
    exists (added_log toLowerCase req c food m w). rewrite Hdb, Hres.
    repeat split. exact Hqs.
Qed.

Lemma falsy_fields_rejected_witness :
  exists f,
    foods (db (snd (add_food
       (with_body [("food_name", JStr "water"); ("serving_size", JStr "1 cup");
                   ("calories", JStr "0")] (Jwt.mkClaims 1 0 3600))
       (quiet empty_db 50))))
    = ([] ++ [f])%list
    /\ f_calories f = JStr "0"
    /\ statusCode (res (snd (add_food
         (with_body [("food_name", JStr "water");
                     ("serving_size", JStr "1 cup");
                     ("calories", JStr "0")] (Jwt.mkClaims 1 0 3600))
         (quiet empty_db 50)))) = 201%nat.
Proof.
  apply (proj1 (proj2 (proj2 (proj2 (proj2
           (falsy_fields_rejected (Jwt.verify sample_mac) "k" ascii_toLowerCase
              (with_body [("food_name", JStr "water");
                          ("serving_size", JStr "1 cup");
                          ("calories", JStr "0")] (Jwt.mkClaims 1 0 3600))
              (quiet empty_db 50)))))) "0");
    try reflexivity. discriminate.
Defined.

(** Calories 100 and the string ["0"] are stored; the number 0 is not. *)
Example add_food_runs :
  let run cal :=
    snd (add_food
      (with_body [("food_name", JStr "egg"); ("serving_size", JNum 1);
                  ("calories", cal)] (Jwt.mkClaims 1 0 3600))
      (quiet empty_db 50)) in
  map f_calories (foods (db (run (JNum 100)))) = [JNum 100]
  /\ statusCode (res (run (JNum 100))) = 201%nat
  /\ map f_calories (foods (db (run (JStr "0")))) = [JStr "0"]
  /\ foods (db (run (JNum 0))) = []
  /\ statusCode (res (run (JNum 0))) = 400%nat.
Proof. vm_compute. repeat split. Qed.

(* ================================================================== *)
(** ** The password hasher *)

(** Comparing a plaintext with its own hash answers true, for any
    derivation function, cost and salt. *)
Lemma compare_own_hash kdf p rounds s h :
  Bcrypt.hash kdf (JStr p) rounds s = Done h ->
  Bcrypt.compare kdf (JStr p) h = Done true.
Proof.
  simpl. intros [= <-]. simpl. now rewrite String.eqb_refl.
Qed.

(** Comparing with the hash of another plaintext answers whether the two
    derived digests coincide. *)
Lemma compare_other_hash kdf p p2 rounds s h :
  Bcrypt.hash kdf (JStr p2) rounds s = Done h ->
  Bcrypt.compare kdf (JStr p) h
  = Done (kdf rounds s p2 =? kdf rounds s p).
Proof.
  simpl. now intros [= <-].
Qed.

(** The register route stores a hash made at cost 10. *)
Lemma register_cost_is_ten kdf req w row :
  In row (users (db (snd (register (Bcrypt.hash kdf) req w)))) ->
  In row (users (db w)) \/ Bcrypt.cost (u_password row) = 10%N.
Proof.
  unfold register, try_catch, bind, pool_select, pool_insert, fallible,
    fresh_salt, lift.
  destruct (faults w) as [|[message|] rest] eqn:Hf; simpl; auto;
    destruct (select_users_by_email _ (db w)); simpl; auto;
    destruct (get (body req) "password"); simpl;
    destruct (salts w) as [|s0 ss]; simpl; rewrite ?Hf; simpl; auto;
    try (destruct rest as [|[message|] rest]; simpl; auto);
    intros Hin; apply in_app_or in Hin as [Hold|[<-|[]]]; auto.
Qed.

(* ================================================================== *)
(** ** Login *)

(** X1: the login route answers an unknown email and a wrong password in
    the same way, with status 400 and [{error: 'Invalid email or
    password'}], and leaves the database as it was. *)
Theorem login_rejects_alike :
  forall jwt_sign bcrypt_compare secret req w,
    hd None (faults w) = None ->
    (select_users_by_email (get (body req) "email") (db w) = []
     \/ exists row rest,
          select_users_by_email (get (body req) "email") (db w) = row :: rest
          /\ bcrypt_compare (get (body req) "password") (u_password row)
             = Done false) ->
    fst (login jwt_sign bcrypt_compare secret req w) = Done tt
    /\ res (snd (login jwt_sign bcrypt_compare secret req w))
       = mkRes 400 (Some (error_body "Invalid email or password"))
    /\ db (snd (login jwt_sign bcrypt_compare secret req w)) = db w.
Proof.
  intros jwt_sign bcrypt_compare secret req w Hf Hcase.
  unfold login, try_catch, bind, pool_select, fallible, lift.
  destruct (faults w) as [|[message|] rest]; simpl in *; try discriminate;
    destruct Hcase as [-> | (row & others & -> & Hcmp)]; simpl;
    rewrite ?Hcmp; simpl; repeat split.
Qed.

Lemma login_rejects_alike_witness :
  res (snd (login (Jwt.sign sample_mac) (Bcrypt.compare sample_kdf) "k"
              (mkReq [] [("email", JStr "nobody@b.com");
                         ("password", JStr "pw")] [] None)
              (quiet empty_db 100)))
  = mkRes 400 (Some (error_body "Invalid email or password")).
Proof.
  apply (login_rejects_alike (Jwt.sign sample_mac) (Bcrypt.compare sample_kdf)
           "k" (mkReq [] [("email", JStr "nobody@b.com");
                          ("password", JStr "pw")] [] None)
           (quiet empty_db 100) eq_refl).
  left. reflexivity.
Defined.

(** X2: when the lookup answers, the password matches the first record
    found, the login route signs that record's id with the configured
    secret, the span ["1h"] and the current clock.  It answers with the token
    and the record's id, name and email, or with status 500 and the signer's
    message when signing fails; the database is unchanged. *)
Theorem login_issues_token_for_first_match :
  forall jwt_sign bcrypt_compare secret req w row rest,
    hd None (faults w) = None ->
    select_users_by_email (get (body req) "email") (db w) = row :: rest ->
    bcrypt_compare (get (body req) "password") (u_password row) = Done true ->
    fst (login jwt_sign bcrypt_compare secret req w) = Done tt
    /\ res (snd (login jwt_sign bcrypt_compare secret req w))
       = login_answer (jwt_sign (u_id row) secret "1h" (now w)) row (res w)
    /\ db (snd (login jwt_sign bcrypt_compare secret req w)) = db w.
Proof.
  intros jwt_sign bcrypt_compare secret req w row rest Hf Hrows Hcmp.
  unfold login, try_catch, bind, pool_select, fallible, lift, clock,
    login_answer.
  destruct (faults w) as [|[message|] others]; simpl in *; try discriminate;
    rewrite Hrows; simpl; rewrite Hcmp; simpl;
    destruct (jwt_sign (u_id row) secret "1h" (now w)); simpl; repeat split.
Qed.

Lemma login_issues_token_for_first_match_witness :
  res (snd (login (Jwt.sign sample_mac) (Bcrypt.compare sample_kdf) "k"
              (mkReq [] [("email", JStr "a@b.com"); ("password", JStr "pw")]
                     [] None)
              (quiet (mkDb [mkUser 1 (JStr "Ann") (JStr "a@b.com")
                              (Bcrypt.mkHash 10 "s" "s#pw") 0] [] []) 100)))
  = login_answer (Jwt.sign sample_mac 1 "k" "1h" 100)
      (mkUser 1 (JStr "Ann") (JStr "a@b.com") (Bcrypt.mkHash 10 "s" "s#pw") 0)
      fresh_response.
Proof.
  apply (login_issues_token_for_first_match
           (Jwt.sign sample_mac) (Bcrypt.compare sample_kdf) "k"
           (mkReq [] [("email", JStr "a@b.com"); ("password", JStr "pw")]
                  [] None)
           (quiet (mkDb [mkUser 1 (JStr "Ann") (JStr "a@b.com")
                           (Bcrypt.mkHash 10 "s" "s#pw") 0] [] []) 100)
           (mkUser 1 (JStr "Ann") (JStr "a@b.com")
                   (Bcrypt.mkHash 10 "s" "s#pw") 0) []);
    reflexivity.
Defined.

(** X3: the login, profile and search routes only read: whatever the
    request and whatever fails, the database after them is the database
    before them. *)
Theorem reading_routes_leave_database :
  forall jwt_sign bcrypt_compare secret req w,
    db (snd (login jwt_sign bcrypt_compare secret req w)) = db w
    /\ db (snd (profile req w)) = db w
    /\ db (snd (search req w)) = db w.
Proof.
  intros jwt_sign bcrypt_compare secret req w. split; [|split].
  - unfold login, try_catch, bind, pool_select, fallible, lift, clock.
    destruct (faults w) as [|[message|] rest]; simpl; try reflexivity;
      destruct (select_users_by_email _ (db w)) as [|row others]; simpl;
      try reflexivity;
      destruct (bcrypt_compare _ (u_password row)) as [[|]|e]; simpl;
      try reflexivity;
      destruct (jwt_sign (u_id row) secret "1h" (now w)); reflexivity.
  - unfold profile, try_catch, bind, pool_select, fallible, req_userId.
    destruct (user req) as [c|]; simpl; [|reflexivity].
    destruct (faults w) as [|[message|] rest]; reflexivity.
  - unfold search.
    destruct (negb (truthy (get (query req) "query"))); [reflexivity|].
    unfold try_catch, bind, axios_get, fallible, lift.
    destruct (faults w) as [|[message|] rest]; simpl; try reflexivity;
      destruct (project (upstream w (get (query req) "query")));
      reflexivity.
Qed.

(* ================================================================== *)
(** ** Registration, continued *)

(** The two ways the register route ends: nothing stored and a status other
    than 201, or the hashed record appended and status 201. *)
Lemma register_cases bcrypt_hash req w :
  (db (snd (register bcrypt_hash req w)) = db w
   /\ statusCode (res (snd (register bcrypt_hash req w))) <> 201%nat)
  \/ exists h,
       bcrypt_hash (get (body req) "password") 10%N (hd "" (salts w)) = Done h
       /\ select_users_by_email (get (body req) "email") (db w) = []
       /\ db (snd (register bcrypt_hash req w))
          = mkDb (users (db w) ++ [registered req h w])%list
                 (foods (db w)) (logs (db w))
       /\ res (snd (register bcrypt_hash req w))
          = mkRes 201
              (Some (JObj [("id", of_N (next_id (users (db w))));
                           ("name", get (body req) "name");
                           ("email", get (body req) "email");
                           ("created_at", of_N (now w))])).
Proof.
  unfold register, try_catch, bind, pool_select, pool_insert, fallible,
    fresh_salt, lift, registered.
  destruct (faults w) as [|[message|] rest] eqn:Hf; simpl;
    try (left; split; [reflexivity | simpl; lia]);
    destruct (select_users_by_email _ (db w)) as [|found others] eqn:Hs;
    simpl; try (left; split; [reflexivity | simpl; lia]);
    destruct (salts w) as [|s0 ss] eqn:Hsalt; simpl;
    destruct (bcrypt_hash _ 10%N _) as [h|e] eqn:Hh; simpl; rewrite ?Hf;
    simpl; try (left; split; [reflexivity | simpl; lia]);
    try (destruct rest as [|[message|] rest]; simpl;
         try (left; split; [reflexivity | simpl; lia]));
    right; exists h; repeat split.
Qed.

(** X4: the register route either stores nothing and answers with a status
    other than 201, or appends exactly one user record and answers 201 with
    its id, name, email and creation time.  The stored password is what the
    hasher returned for the request's password at cost 10, never the
    password itself, and the response does not carry it. *)
Theorem register_stores_one_hashed_record :
  forall bcrypt_hash req w,
    (db (snd (register bcrypt_hash req w)) = db w
     /\ statusCode (res (snd (register bcrypt_hash req w))) <> 201%nat)
    \/ exists h row,
         bcrypt_hash (get (body req) "password") 10%N (hd "" (salts w))
         = Done h
         /\ users (db (snd (register bcrypt_hash req w)))
            = (users (db w) ++ [row])%list
         /\ foods (db (snd (register bcrypt_hash req w))) = foods (db w)
         /\ logs (db (snd (register bcrypt_hash req w))) = logs (db w)
         /\ u_password row = h
         /\ u_name row = get (body req) "name"
         /\ u_email row = get (body req) "email"
         /\ res (snd (register bcrypt_hash req w))
            = mkRes 201
                (Some (JObj [("id", of_N (u_id row));
                             ("name", get (body req) "name");
                             ("email", get (body req) "email");
                             ("created_at", of_N (u_created_at row))])).
Proof.
  intros bcrypt_hash req w.
  destruct (register_cases bcrypt_hash req w)
    as [Same|(h & Hh & _ & Hdb & Hres)]; [now left|].
  right. exists h, (registered req h w).
  rewrite Hdb, Hres. repeat split. exact Hh.
Qed.

(** X5: when hashing the request's password fails, the register route
    answers with status 500 and the hasher's message and stores nothing. *)
Theorem register_hash_failure :
  forall bcrypt_hash req w e,
    hd None (faults w) = None ->
    select_users_by_email (get (body req) "email") (db w) = [] ->
    bcrypt_hash (get (body req) "password") 10%N (hd "" (salts w)) = Thrown e ->
    fst (register bcrypt_hash req w) = Done tt
    /\ res (snd (register bcrypt_hash req w)) = mkRes 500 (Some (error_body e))
    /\ db (snd (register bcrypt_hash req w)) = db w.
Proof.
  intros bcrypt_hash req w e Hf Hs Hh.
  unfold register, try_catch, bind, pool_select, fallible, fresh_salt, lift.
  destruct (faults w) as [|[message|] rest]; simpl in *; try discriminate;
    rewrite Hs; simpl;
    destruct (salts w) as [|s0 ss]; simpl in *; rewrite Hh; simpl;
    repeat split.
Qed.

Lemma register_hash_failure_witness :
  res (snd (register (Bcrypt.hash sample_kdf)
              (mkReq [] [("name", JStr "Ann"); ("email", JStr "a@b.com")]
                     [] None)
              (quiet empty_db 100)))
  = mkRes 500 (Some (error_body "Illegal arguments: undefined, number")).
Proof.
  apply (register_hash_failure (Bcrypt.hash sample_kdf)
           (mkReq [] [("name", JStr "Ann"); ("email", JStr "a@b.com")]
                  [] None)
           (quiet empty_db 100) "Illegal arguments: undefined, number");
    reflexivity.
Defined.

Lemma filter_nil_forall {A} (f : A -> bool) (l : list A) :
  filter f l = [] -> Forall (fun a => f a = false) l.
Proof.
  induction l as [|a l IH]; simpl; [constructor|].
  destruct (f a) eqn:E; [discriminate|].
  intros H. constructor; [assumption | now apply IH].
Qed.

Lemma ordered_pairs_snoc {A} (R : A -> A -> Prop) (l : list A) (x : A) :
  ForallOrdPairs R l -> Forall (fun a => R a x) l ->
  ForallOrdPairs R (l ++ [x]).
Proof.
  induction 1 as [|a l Ha Hl IH]; simpl; intros Hx.
  - constructor; constructor.
  - inversion Hx as [|? ? Hax Hlx]; subst.
    constructor.
    + apply Forall_app. split; [assumption | now constructor].
    + now apply IH.
Qed.

(** X6: the register route keeps the emails of the user table distinct: if
    no two records have matching emails before a request, none have after
    it, whatever the request and whatever fails. *)
Theorem register_keeps_emails_unique :
  forall bcrypt_hash req w,
    unique_emails (db w) ->
    unique_emails (db (snd (register bcrypt_hash req w))).
Proof.
  intros bcrypt_hash req w Hu.
  destruct (register_cases bcrypt_hash req w)
    as [[Same _]|(h & _ & Hs & Hdb & _)].
  - now rewrite Same.
  - unfold unique_emails in *. rewrite Hdb. simpl.
    apply ordered_pairs_snoc; [assumption|].
    apply filter_nil_forall in Hs. exact Hs.
Qed.

Lemma register_keeps_emails_unique_witness :
  unique_emails
    (db (snd (register (Bcrypt.hash sample_kdf)
                (mkReq [] [("name", JStr "Bob"); ("email", JStr "b@b.com");
                           ("password", JStr "pw")] [] None)
                (quiet (mkDb [mkUser 1 (JStr "Ann") (JStr "a@b.com")
                                (Bcrypt.mkHash 10 "s" "s#pw") 0] [] []) 100)))).
Proof.
  apply register_keeps_emails_unique.
  repeat constructor.
Defined.

Lemma select_after_insert email row d foods' logs' :
  select_users_by_email email d = [] ->
  sql_eq (u_email row) email = true ->
  select_users_by_email email (mkDb (users d ++ [row])%list foods' logs')
  = [row].
Proof.
  unfold select_users_by_email. simpl. intros Hnone Hrow.
  rewrite filter_app, Hnone. simpl. now rewrite Hrow.
Qed.

(** X7: registering and then logging in with the same body.  If the hasher
    and the comparison agree (comparing a password with the hash made from
    it answers true) and the email matches itself in the lookup, then after
    a registration answered with 201 the login route finds the new record,
    and signs its id: the response is the token for the id the registration
    returned, or status 500 when signing fails. *)
Theorem register_then_login :
  forall jwt_sign bcrypt_hash bcrypt_compare secret req w w2,
    (forall v s h, bcrypt_hash v 10%N s = Done h ->
                   bcrypt_compare v h = Done true) ->
    sql_eq (get (body req) "email") (get (body req) "email") = true ->
    statusCode (res (snd (register bcrypt_hash req w))) = 201%nat ->
    db w2 = db (snd (register bcrypt_hash req w)) ->
    hd None (faults w2) = None ->
    exists row,
      In row (users (db w2))
      /\ u_id row = next_id (users (db w))
      /\ u_email row = get (body req) "email"
      /\ res (snd (login jwt_sign bcrypt_compare secret req w2))
         = login_answer (jwt_sign (next_id (users (db w))) secret "1h" (now w2))
             row (res w2).
Proof.
  intros jwt_sign bcrypt_hash bcrypt_compare secret req w w2
    Hagree Hemail H201 Hdb Hf.
  destruct (register_cases bcrypt_hash req w)
    as [[_ Hno]|(h & Hh & Hs & Hnew & _)]; [contradiction|].
  rewrite Hnew in Hdb.
  exists (registered req h w). repeat split.
  - rewrite Hdb. simpl. apply in_or_app. right. now left.
  - assert (Hsel : select_users_by_email (get (body req) "email") (db w2)
                   = [registered req h w]).
    { rewrite Hdb. now apply select_after_insert. }
    apply Hagree in Hh.
    unfold login, try_catch, bind, pool_select, fallible, lift, clock,
      login_answer.
    destruct (faults w2) as [|[message|] others]; simpl in *;
      try discriminate; rewrite Hsel; simpl; rewrite Hh; simpl;
      destruct (jwt_sign (next_id (users (db w))) secret "1h" (now w2));
      reflexivity.
Qed.

Lemma register_then_login_witness :
  exists row,
    In row (users (db (snd (register (Bcrypt.hash sample_kdf)
                 (mkReq [] [("name", JStr "Ann"); ("email", JStr "a@b.com");
                            ("password", JStr "pw")] [] None)
                 (quiet empty_db 100)))))
    /\ u_id row = next_id (users (db (quiet empty_db 100)))
    /\ u_email row = JStr "a@b.com"
    /\ res (snd (login (Jwt.sign sample_mac) (Bcrypt.compare sample_kdf) "k"
                   (mkReq [] [("name", JStr "Ann"); ("email", JStr "a@b.com");
                              ("password", JStr "pw")] [] None)
                   (snd (register (Bcrypt.hash sample_kdf)
                      (mkReq [] [("name", JStr "Ann"); ("email", JStr "a@b.com");
                                 ("password", JStr "pw")] [] None)
                      (quiet empty_db 100)))))
       = login_answer
           (Jwt.sign sample_mac (next_id (users (db (quiet empty_db 100))))
              "k" "1h" 100)
           row (mkRes 201 (Some (JObj [("id", of_N 1); ("name", JStr "Ann");
                                       ("email", JStr "a@b.com");
                                       ("created_at", of_N 100)]))).
Proof.
  apply (register_then_login (Jwt.sign sample_mac) (Bcrypt.hash sample_kdf)
           (Bcrypt.compare sample_kdf) "k"
           (mkReq [] [("name", JStr "Ann"); ("email", JStr "a@b.com");
                      ("password", JStr "pw")] [] None)
           (quiet empty_db 100)
           (snd (register (Bcrypt.hash sample_kdf)
              (mkReq [] [("name", JStr "Ann"); ("email", JStr "a@b.com");
                         ("password", JStr "pw")] [] None)
              (quiet empty_db 100)))).
  - intros v s h Hh. destruct v; simpl in Hh; try discriminate.
    injection Hh as <-. simpl. now rewrite String.eqb_refl.
  - reflexivity.
  - reflexivity.
  - reflexivity.
  - reflexivity.
Defined.

(* ================================================================== *)
(** ** The food endpoints, continued *)

(** X8: the add-food handler either stores nothing and answers with a
    status other than 201, or appends one food record and answers 201 with
    that record.  The record carries the request's name, serving size and
    calories, is marked custom, and has 0 for each of protein, carbs and fat
    that the request leaves out or gives as a falsy value. *)
Theorem add_food_stores_custom_food :
  forall req w,
    (db (snd (add_food req w)) = db w
     /\ statusCode (res (snd (add_food req w))) <> 201%nat)
    \/ (db (snd (add_food req w))
        = mkDb (users (db w)) (foods (db w) ++ [added_food req w])%list
               (logs (db w))
        /\ res (snd (add_food req w))
           = mkRes 201 (Some (food_json (added_food req w)))
        /\ f_is_custom (added_food req w) = true
        /\ (truthy (get (body req) "protein") = false ->
            f_protein (added_food req w) = JNum 0)
        /\ (truthy (get (body req) "carbs") = false ->
            f_carbs (added_food req w) = JNum 0)
        /\ (truthy (get (body req) "fat") = false ->
            f_fat (added_food req w) = JNum 0)).
Proof.
  intros req w. unfold add_food.
  destruct (truthy (get (body req) "food_name")); simpl;
    [|left; split; [reflexivity | simpl; lia]].
  destruct (truthy (get (body req) "serving_size")); simpl;
    [|left; split; [reflexivity | simpl; lia]].
  destruct (truthy (get (body req) "calories")); simpl;
    [|left; split; [reflexivity | simpl; lia]].
  unfold try_catch, bind, pool_insert, fallible.
  destruct (faults w) as [|[message|] rest]; simpl;
    try (left; split; [reflexivity | simpl; lia]);
    right; repeat split; unfold or_else; intros ->; reflexivity.
Qed.

(** X9: a log-food request with all three fields and a string meal type,
    whose food id matches no food record, is answered with status 404 and
    [{error: 'Food not found'}]; no log is stored. *)
Theorem log_food_unknown_food :
  forall toLowerCase req w m,
    truthy (get (body req) "food_id") = true ->
    get (body req) "meal_type" = JStr m -> m <> "" ->
    truthy (get (body req) "quantity") = true ->
    hd None (faults w) = None ->
    select_food_by_id (get (body req) "food_id") (db w) = [] ->
    fst (log_food toLowerCase req w) = Done tt
    /\ res (snd (log_food toLowerCase req w)) = mkRes 404 (Some (error_body "Food not found"))
    /\ db (snd (log_food toLowerCase req w)) = db w.
Proof.
  intros toLowerCase req w m Hid Hm Hne Hq Hf Hnone.
  apply String.eqb_neq in Hne.
  unfold log_food. rewrite Hid, Hq, Hm. simpl. rewrite Hne. simpl.
  unfold bind, ret, try_catch, pool_select, fallible.
  destruct (faults w) as [|[message|] rest]; simpl in *; try discriminate;
    rewrite Hnone; repeat split.
Qed.

Lemma log_food_unknown_food_witness :
  res (snd (log_food ascii_toLowerCase
         (with_body [("food_id", JNum 9); ("meal_type", JStr "lunch");
                     ("quantity", JNum 1)] (Jwt.mkClaims 1 0 3600))
         (quiet empty_db 50)))
  = mkRes 404 (Some (error_body "Food not found")).
Proof.
  apply (log_food_unknown_food ascii_toLowerCase
           (with_body [("food_id", JNum 9); ("meal_type", JStr "lunch");
                       ("quantity", JNum 1)] (Jwt.mkClaims 1 0 3600))
           (quiet empty_db 50) "lunch");
    try reflexivity. discriminate.
Defined.

(** The row the log-food handler appends, when it appends one. *)
Lemma log_food_row toLowerCase req w :
  db (snd (log_food toLowerCase req w)) = db w
  \/ exists c food others row,
       user req = Some c
       /\ select_food_by_id (get (body req) "food_id") (db w) = food :: others
       /\ db (snd (log_food toLowerCase req w))
          = mkDb (users (db w)) (foods (db w)) (logs (db w) ++ [row])%list
       /\ l_user_id row = Jwt.userId c
       /\ l_food_id row = get (body req) "food_id"
       /\ l_food_name row = f_food_name food
       /\ l_logged_at row = now w
       /\ res (snd (log_food toLowerCase req w)) = mkRes 201 (Some (log_json row)).
Proof.
  unfold log_food.
  destruct (truthy (get (body req) "food_id")); simpl; [|now left].
  destruct (truthy (get (body req) "meal_type")); simpl; [|now left].
  destruct (truthy (get (body req) "quantity")); simpl; [|now left].
  destruct (get (body req) "meal_type") as [| |b|q|m|items|fields];
    try (now left).
  unfold bind, call_toLowerCase, ret, try_catch, pool_select, pool_insert,
    fallible, req_userId.
  fold (coerced toLowerCase m).
  remember (coerced toLowerCase m) as type eqn:Htype.
  destruct (faults w) as [|[message|] rest] eqn:Hf; simpl; try (now left).
  - destruct (select_food_by_id _ (db w)) as [|food others]; simpl;
      [now left|].
    destruct (user req) as [c|]; simpl; [|now left].
    rewrite Hf. simpl.
    right. eexists c, food, others, _. repeat split.
  - destruct (select_food_by_id _ (db w)) as [|food others]; simpl;
      [now left|].
    destruct (user req) as [c|]; simpl; [|now left].
    destruct rest as [|[message|] rest]; simpl; try (now left);
      right; eexists c, food, others, _; repeat split.
Qed.

Lemma filter_head_in {A} (f : A -> bool) (l : list A) a rest :
  filter f l = a :: rest -> In a l /\ f a = true.
Proof.
  intros H. apply filter_In. rewrite H. now left.
Qed.

(** X10: every log the mounted log-food route stores belongs to the user
    the verifier named for the request's token, and copies the name of a
    food record whose id matches the request's food id: a body cannot log
    for another user or for a food that is not in the table. *)
Theorem log_is_for_token_user :
  forall jwt_verify secret toLowerCase req w l,
    In l (logs (db (snd (route_log_food jwt_verify secret toLowerCase
                          req w)))) ->
    In l (logs (db w))
    \/ exists token c food,
         bearer (header (headers req) "authorization") = Some token
         /\ jwt_verify token secret (now w) = inl c
         /\ l_user_id l = Jwt.userId c
         /\ In food (foods (db w))
         /\ sql_eq (of_N (f_id food)) (get (body req) "food_id") = true
         /\ l_food_id l = get (body req) "food_id"
         /\ l_food_name l = f_food_name food.
Proof.
  intros jwt_verify secret toLowerCase req w l.
  unfold route_log_food, authenticateToken.
  destruct (bearer (header (headers req) "authorization")) as [token|];
    [|now left].
  destruct (token =? ""); [now left|].
  unfold verify_branch, bind, clock.
  destruct (jwt_verify token secret (now w)) as [c|e] eqn:Hv; [|now left].
  destruct (log_food_row toLowerCase (set_user c req) w)
    as [Same|(c' & food & others & row & Hu & Hsel & Hdb & Hid & Hfid & Hname & _)].
  - rewrite Same. now left.
  - rewrite Hdb. simpl. intros Hin.
    apply in_app_or in Hin as [Hold|[<-|[]]]; [now left|].
    right. exists token, c, food.
    simpl in Hu. injection Hu as <-.
    apply filter_head_in in Hsel as [Hin Heq].
    repeat split; assumption.
Qed.

Lemma log_is_for_token_user_witness :
  In (mkLog 1 1 (JNum 1) (JStr "egg") "lunch" (JNum 2) 200) []
  \/ exists token c food,
       bearer (Some "Bearer 1.100.3700.k#1.100.3700") = Some token
       /\ Jwt.verify sample_mac token "k" 200 = inl c
       /\ 1%N = Jwt.userId c
       /\ In food [mkFood 1 (JStr "egg") (JStr "1") (JNum 100)
                     (JNum 0) (JNum 0) (JNum 0) true]
       /\ sql_eq (of_N (f_id food)) (JNum 1) = true
       /\ JNum 1 = JNum 1
       /\ JStr "egg" = f_food_name food.
Proof.
  apply (log_is_for_token_user (Jwt.verify sample_mac) "k" ascii_toLowerCase
           (mkReq [("authorization", "Bearer 1.100.3700.k#1.100.3700")]
                  [("food_id", JNum 1); ("meal_type", JStr "lunch");
                   ("quantity", JNum 2); ("user_id", JNum 7)] [] None)
           (quiet (mkDb [] [mkFood 1 (JStr "egg") (JStr "1") (JNum 100)
                              (JNum 0) (JNum 0) (JNum 0) true] []) 200)
           (mkLog 1 1 (JNum 1) (JStr "egg") "lunch" (JNum 2) 200)).
  vm_compute. left. reflexivity.
Defined.

(** X11: each route writes to its own table only: registration leaves foods
    and logs alone, add-food leaves users and logs alone, log-food leaves
    users and foods alone. *)
Theorem routes_write_their_own_table :
  forall bcrypt_hash toLowerCase req w,
    (foods (db (snd (register bcrypt_hash req w))) = foods (db w)
     /\ logs (db (snd (register bcrypt_hash req w))) = logs (db w))
    /\ (users (db (snd (add_food req w))) = users (db w)
        /\ logs (db (snd (add_food req w))) = logs (db w))
    /\ (users (db (snd (log_food toLowerCase req w))) = users (db w)
        /\ foods (db (snd (log_food toLowerCase req w))) = foods (db w)).
Proof.
  intros bcrypt_hash toLowerCase req w. split; [|split].
  - destruct (register_cases bcrypt_hash req w)
      as [[Same _]|(h & _ & _ & Hdb & _)]; rewrite ?Same, ?Hdb; now split.
  - unfold add_food.
    destruct (negb (truthy (get (body req) "food_name"))
              || negb (truthy (get (body req) "serving_size"))
              || negb (truthy (get (body req) "calories")));
      [now split|].
    unfold try_catch, bind, pool_insert, fallible.
    destruct (faults w) as [|[message|] rest]; now split.
  - destruct (log_food_row toLowerCase req w)
      as [Same|(c & food & others & row & _ & _ & Hdb & _)];
      rewrite ?Same, ?Hdb; now split.
Qed.

(* ================================================================== *)
(** ** Search and profile *)







(** X13: the mounted profile route, on a token the verifier accepts and a
    lookup that answers: it sends the id, name and email of the user whose
    id the token names, and nothing else of the record; when no such user
    is left it still answers with the unchanged status and an undefined
    body instead of an error. *)
Theorem profile_of_token_user :
  forall jwt_verify secret req w token c,
    bearer (header (headers req) "authorization") = Some token ->
    token <> "" ->
    jwt_verify token secret (now w) = inl c ->
    hd None (faults w) = None ->
    fst (route_profile jwt_verify secret req w) = Done tt
    /\ (select_user_by_id (Jwt.userId c) (db w) = [] ->
        res (snd (route_profile jwt_verify secret req w))
        = mkRes (statusCode (res w)) (Some JUndefined))
    /\ (forall row rest,
          select_user_by_id (Jwt.userId c) (db w) = row :: rest ->
          u_id row = Jwt.userId c
          /\ res (snd (route_profile jwt_verify secret req w))
             = mkRes (statusCode (res w))
                 (Some (JObj [("id", of_N (u_id row)); ("name", u_name row);
                              ("email", u_email row)]))).
Proof.
  intros jwt_verify secret req w token c Hb Hne Hv Hf.
  apply String.eqb_neq in Hne.
  unfold route_profile, authenticateToken, verify_branch, bind, clock.
  rewrite Hb, Hne, Hv.
  unfold profile, try_catch, bind, pool_select, fallible, req_userId, ret.
  simpl.
  destruct (faults w) as [|[message|] others]; simpl in *; try discriminate.
  - split; [|split].
    + reflexivity.
    + intros ->. reflexivity.
    + intros row rest Hsel. rewrite Hsel. split; [|reflexivity].
      apply filter_head_in in Hsel as [_ Hid]. now apply N.eqb_eq in Hid.
  - split; [|split].
    + reflexivity.
    + intros ->. reflexivity.
    + intros row rest Hsel. rewrite Hsel. split; [|reflexivity].
      apply filter_head_in in Hsel as [_ Hid]. now apply N.eqb_eq in Hid.
Qed.

Lemma profile_of_token_user_witness :
  res (snd (route_profile (Jwt.verify sample_mac) "k"
              (with_auth "Bearer 1.100.3700.k#1.100.3700")
              (quiet empty_db 200)))
  = mkRes 200 (Some JUndefined).
Proof.
  apply (proj1 (proj2 (profile_of_token_user (Jwt.verify sample_mac) "k"
           (with_auth "Bearer 1.100.3700.k#1.100.3700") (quiet empty_db 200)
           "1.100.3700.k#1.100.3700" (Jwt.mkClaims 1 100 3700)
           eq_refl ltac:(discriminate) eq_refl eq_refl))).
  reflexivity.
Defined.

(* ================================================================== *)
(** ** The guard, continued *)

Lemma split_fields_no_sep sep s :
  Forall (fun field => has_char sep field = false) (split sep s).
Proof.
  induction s as [|c s IH]; simpl.
  - constructor; [reflexivity | constructor].
  - destruct (Ascii.eqb c sep) eqn:E.
    + constructor; [reflexivity | exact IH].
    + destruct (split sep s) as [|field fields].
      * constructor; [simpl; now rewrite E | constructor].
      * inversion IH as [|? ? Hfield Hfields]; subst.
        constructor; [simpl; now rewrite E, Hfield | assumption].
Qed.

Lemma split_nonempty sep s : split sep s <> [].
Proof.
  destruct s as [|c s]; simpl; [discriminate|].
  destruct (Ascii.eqb c sep); [discriminate|].
  destruct (split sep s); discriminate.
Qed.

(** X14: splitting at a separator and joining the fields with it gives the
    string back, and no field contains the separator. *)
Theorem split_then_join :
  forall sep s,
    String.concat (String sep "") (split sep s) = s
    /\ Forall (fun field => has_char sep field = false) (split sep s).
Proof.
  intros sep s. split; [|apply split_fields_no_sep].
  induction s as [|c s IH]; simpl; [reflexivity|].
  destruct (Ascii.eqb_spec c sep) as [->|Hc].
  - generalize (split_nonempty sep s).
    destruct (split sep s) as [|field fields]; [congruence|].
    intros _. simpl in *. now rewrite IH.
  - destruct (split sep s) as [|field fields]; simpl in *.
    + now rewrite <- IH.
    + destruct fields; simpl in *; now rewrite <- IH.
Qed.

(** X15: the token the guard takes from a header never contains a space, so
    of a header with several spaces only the part between the first and the
    second reaches verification; and when the first space is followed by
    another one the token is empty and the guard takes the no-credential
    branch, whatever follows. *)
Theorem guard_token_has_no_space :
  forall jwt_verify secret req next,
    (forall token,
        bearer (header (headers req) "authorization") = Some token ->
        has_char " " token = false)
    /\ (forall scheme rest,
          has_char " " scheme = false ->
          header (headers req) "authorization"
          = Some (scheme ++ "  " ++ rest) ->
          authenticateToken jwt_verify secret req next = no_token_branch).
Proof.
  intros jwt_verify secret req next. split.
  - intros token. unfold bearer.
    destruct (header (headers req) "authorization") as [h|]; [|discriminate].
    destruct (h =? ""); [now intros [= <-]|].
    intros Hnth. apply nth_error_In in Hnth.
    pose proof (split_fields_no_sep " " h) as Hall.
    rewrite Forall_forall in Hall. now apply Hall.
  - intros scheme rest Hs Hh. unfold authenticateToken, bearer. rewrite Hh.
    destruct (String.eqb_spec (scheme ++ "  " ++ rest) "") as [E|_].
    + reflexivity.
    + change (scheme ++ "  " ++ rest) with (scheme ++ String " " (String " " rest)).
      rewrite split_second_field by assumption. reflexivity.
Qed.

Lemma guard_token_has_no_space_witness :
  authenticateToken (Jwt.verify sample_mac) "k"
    (with_auth "Bearer  1.100.3700.k#1.100.3700") echo_user
  = no_token_branch.
Proof.
  apply (proj2 (guard_token_has_no_space (Jwt.verify sample_mac) "k"
                  (with_auth "Bearer  1.100.3700.k#1.100.3700") echo_user)
               "Bearer" "1.100.3700.k#1.100.3700");
    reflexivity.
Defined.

(** X16: the guard runs the next stage only on the request it was given
    with [user] set: two next stages that agree on every request with these
    headers, body and query and some claims attached give the same guarded
    route. *)
Theorem guard_runs_next_with_claims :
  forall jwt_verify secret req next1 next2 w,
    (forall c, next1 (mkReq (headers req) (body req) (query req) (Some c)) w
               = next2 (mkReq (headers req) (body req) (query req) (Some c)) w) ->
    authenticateToken jwt_verify secret req next1 w
    = authenticateToken jwt_verify secret req next2 w.
Proof.
  intros jwt_verify secret req next1 next2 w Hagree.
  unfold authenticateToken.
  destruct (bearer (header (headers req) "authorization")) as [token|];
    [|reflexivity].
  destruct (token =? ""); [reflexivity|].
  unfold verify_branch, bind, clock, set_user.
  destruct (jwt_verify token secret (now w)) as [c|e];
    [apply Hagree | reflexivity].
Qed.

Lemma guard_runs_next_with_claims_witness :
  authenticateToken (Jwt.verify sample_mac) "k"
    (with_auth "Bearer 1.100.3700.k#1.100.3700") echo_user (quiet empty_db 200)
  = authenticateToken (Jwt.verify sample_mac) "k"
      (with_auth "Bearer 1.100.3700.k#1.100.3700")
      (fun r => match user r with
                | Some c => res_json (of_N (Jwt.userId c))
                | None => throw "no user"
                end)
      (quiet empty_db 200).
Proof.
  apply (guard_runs_next_with_claims (Jwt.verify sample_mac) "k"
           (with_auth "Bearer 1.100.3700.k#1.100.3700") echo_user
           (fun r => match user r with
                     | Some c => res_json (of_N (Jwt.userId c))
                     | None => throw "no user"
                     end)
           (quiet empty_db 200)).
  intros c. reflexivity.
Defined.

(** X17: a guarded profile or add-food request ends in a thrown error
    exactly when the guard finds no token; with a token, whatever the
    verifier and the database do, the route ends with a response. *)
Theorem guarded_routes_throw_only_without_token :
  forall jwt_verify secret req w,
    let absent :=
      match bearer (header (headers req) "authorization") with
      | None => true
      | Some token => token =? ""
      end in
    ((exists e, fst (route_profile jwt_verify secret req w) = Thrown e)
       <-> absent = true)
    /\ ((exists e, fst (route_add_food jwt_verify secret req w) = Thrown e)
         <-> absent = true).
Proof.
  intros jwt_verify secret req w absent. subst absent.
  unfold route_profile, route_add_food, authenticateToken.
  destruct (bearer (header (headers req) "authorization")) as [token|].
  - destruct (token =? "").
    + split; (split; [reflexivity | intros _; eexists; reflexivity]).
    + unfold verify_branch, bind, clock.
      destruct (jwt_verify token secret (now w)) as [c|e]; simpl.
      * rewrite profile_never_throws, add_food_never_throws.
        split; (split; [intros [e He]; discriminate | discriminate]).
      * split; (split; [intros [e' He]; discriminate | discriminate]).
  - split; (split; [reflexivity | intros _; eexists; reflexivity]).
Qed.

(* ================================================================== *)
(** ** Meal types *)

(** X18: every record the log-food route stores has one of the four meal
    types, whatever lower-casing does to the request's string: a table of
    logs with valid meal types keeps them valid under any request.  And if
    lower-casing leaves the four meal types unchanged, a request whose meal
    type is one of the four, for instance the meal type of a record stored
    earlier, has exactly that meal type stored. *)
Theorem log_food_keeps_meal_types_valid :
  forall toLowerCase req w,
    (Forall valid_meal (logs (db w)) ->
     Forall valid_meal (logs (db (snd (log_food toLowerCase req w)))))
    /\ (forall m c food others,
          (forall t, In t validMealTypes -> toLowerCase t = t) ->
          In m validMealTypes ->
          get (body req) "meal_type" = JStr m ->
          truthy (get (body req) "food_id") = true ->
          truthy (get (body req) "quantity") = true ->
          user req = Some c ->
          hd None (faults w) = None -> hd None (tl (faults w)) = None ->
          select_food_by_id (get (body req) "food_id") (db w)
          = food :: others ->
          exists row,
            logs (db (snd (log_food toLowerCase req w)))
            = (logs (db w) ++ [row])%list
            /\ l_meal_type row = m).
Proof.
  intros toLowerCase req w. split.
  - intros Hall.
    destruct (log_food_effect toLowerCase req w)
      as [Same|(m & row & _ & Hl & Ht & _)].
    + now rewrite Same.
    + rewrite Hl. apply Forall_app. split; [assumption|].
      constructor; [|constructor].
      unfold valid_meal. rewrite Ht. apply coerced_valid.
  - intros m c food others Hfix Hin Hm Hid Hq Hu Hf1 Hf2 Hsel.
    assert (Hne : m <> "").
    { simpl in Hin. destruct Hin as [<-|[<-|[<-|[<-|[]]]]]; discriminate. }
    destruct (log_food_on_string toLowerCase req w c food others m
                Hid Hm Hne Hq Hu Hf1 Hf2 Hsel) as (_ & Hdb & _).
    exists (added_log toLowerCase req c food m w). rewrite Hdb.
    split; [reflexivity|]. simpl.
    unfold coerced. rewrite (Hfix m Hin).
    replace (includes validMealTypes m) with true; [reflexivity|].
    symmetry. unfold includes. apply existsb_exists.
    exists m. split; [assumption | apply String.eqb_refl].
Qed.

Lemma log_food_keeps_meal_types_valid_witness :
  exists row,
    logs (db (snd (log_food ascii_toLowerCase
       (with_body [("food_id", JNum 1); ("meal_type", JStr "dinner");
                   ("quantity", JNum 2)] (Jwt.mkClaims 1 0 3600))
       (quiet (mkDb [] [mkFood 1 (JStr "egg") (JStr "1") (JNum 100)
                          (JNum 0) (JNum 0) (JNum 0) true] []) 50))))
    = ([] ++ [row])%list
    /\ l_meal_type row = "dinner".
Proof.
  apply (proj2 (log_food_keeps_meal_types_valid ascii_toLowerCase
           (with_body [("food_id", JNum 1); ("meal_type", JStr "dinner");
                       ("quantity", JNum 2)] (Jwt.mkClaims 1 0 3600))
           (quiet (mkDb [] [mkFood 1 (JStr "egg") (JStr "1") (JNum 100)
                              (JNum 0) (JNum 0) (JNum 0) true] []) 50))
           "dinner" (Jwt.mkClaims 1 0 3600)
           (mkFood 1 (JStr "egg") (JStr "1") (JNum 100)
                   (JNum 0) (JNum 0) (JNum 0) true) []);
    try reflexivity.
  - intros t [<-|[<-|[<-|[<-|[]]]]]; reflexivity.
  - simpl. auto.
Defined.

(* ================================================================== *)
(** ** The daily summary *)

(** X19: the daily-summary handler, on a request with claims attached.  It
    never writes and never throws.  When the first query fails it answers
    500 with that failure's message and does not issue the second query;
    when only the second fails it answers 500 with the second message; when
    both answer, the body holds the date, the first row of the totals and
    all meal rows, both queried for the user id of the claims. *)
Theorem daily_summary_answers :
  forall total_query meal_query iso_date req w c,
    user req = Some c ->
    let w' := snd (daily_summary total_query meal_query iso_date req w) in
    fst (daily_summary total_query meal_query iso_date req w) = Done tt
    /\ db w' = db w
    /\ (forall message rest,
          faults w = Some message :: rest ->
          res w' = mkRes 500 (Some (error_body message)) /\ faults w' = rest)
    /\ (forall message rest,
          faults w = None :: Some message :: rest ->
          res w' = mkRes 500 (Some (error_body message)) /\ faults w' = rest)
    /\ (hd None (faults w) = None -> hd None (tl (faults w)) = None ->
        res w'
        = mkRes (statusCode (res w))
            (Some (JObj [("date", JStr (iso_date (now w)));
                         ("total",
                          nth 0 (total_query (Jwt.userId c) (now w) (db w))
                              JUndefined);
                         ("meals",
                          JArr (meal_query (Jwt.userId c) (now w) (db w)))]))).
Proof.
  intros total_query meal_query iso_date req w c Hu w'. subst w'.
  unfold daily_summary, try_catch, bind, fallible, req_userId, clock, ret.
  rewrite Hu. simpl.
  destruct (faults w) as [|[m1|] [|[m2|] rest]] eqn:Hf; simpl; rewrite ?Hf;
    simpl; repeat split; intros; try discriminate;
    repeat match goal with
           | H : _ :: _ = _ :: _ |- _ => injection H as; subst
           end;
    reflexivity.
Qed.

Lemma daily_summary_answers_witness :
  fst (daily_summary (fun _ _ _ => [JNum 0]) (fun _ _ _ => []) (fun _ => "d")
         (with_body [] (Jwt.mkClaims 1 0 3600)) (quiet empty_db 5))
  = Done tt.
Proof.
  apply (daily_summary_answers (fun _ _ _ => [JNum 0]) (fun _ _ _ => [])
           (fun _ => "d") (with_body [] (Jwt.mkClaims 1 0 3600))
           (quiet empty_db 5) (Jwt.mkClaims 1 0 3600) eq_refl).
Defined.
